(** * Book collection manager: a shallow embedding of [src/app.py]

    The program keeps a list of book records (Python dicts) in
    [BookCollection.books_list], rewrites the whole list to [books.json]
    with [json.dump(..., indent=4)] after every mutation and reads it back
    with [json.load].  The Streamlit script around the class guards the add
    form and runs two text searches over the list.

    Modelling choices.
    - Python values are the JSON-compatible ones the program handles:
      [None], [bool], [int], [str], [list] and [dict].  A [str] is a
      [string] whose characters are the code points U+0000..U+00FF; a
      [dict] is an association list in insertion order (a Python dict has
      no duplicate keys: predicate [wf_value]).
    - A method either returns, raises a Python exception, or leaves the
      model ([Unmodelled]: a float or a code point above U+00FF met while
      decoding JSON, or a true division outside the exactly convertible
      integers).  The decoder recurses on fuel, which [json_loads] gives it
      in excess ([DecoderFacts.json_loads_fuel]).  Every method of the
      class raises, if at all, before its first mutation, so a raised
      exception carries no state.
    - The file system is the content of the storage file, as text, or its
      absence, together with the log of the texts written by
      [save_to_file].  Writes succeed; encodings, newline translation and
      the interpreter's resource limits (recursion depth, integer digit
      limit) are not modelled.
    - Records are values, not references: the program never stores one
      dict object twice in [books_list], so in-place [dict.update] on a
      record is a functional update at its position. *)

From Stdlib Require Import String Ascii List ZArith NArith PeanoNat Bool Lia.
From Stdlib Require Import Decimal DecimalString DecimalFacts DecimalN DecimalPos.
From Stdlib Require Import SpecFloat.
Import ListNotations.

Local Open Scope string_scope.
Local Open Scope list_scope.

(** ** Python values and outcomes *)

Module Py.

Unset Elimination Schemes.
Inductive value : Type :=
| VNone
| VBool (b : bool)
| VInt (n : Z)
| VStr (s : string)
| VList (l : list value)
| VDict (d : list (string * value)).
Set Elimination Schemes.

Definition dict : Type := list (string * value).

Inductive exn : Type :=
| KeyError
| TypeError
| AttributeError
| ZeroDivisionError
| FileNotFoundError
| JSONDecodeError.

Inductive outcome (A : Type) : Type :=
| Return (a : A)
| Raise (e : exn)
| Unmodelled.

Arguments Return {A} a.
Arguments Raise {A} e.
Arguments Unmodelled {A}.

Definition bind {A B : Type} (m : outcome A) (k : A -> outcome B) : outcome B :=
  match m with
  | Return a => k a
  | Raise e => Raise e
  | Unmodelled => Unmodelled
  end.

(** [str.lower()] on the code points below U+0100: the upper-case letters
    are A..Z and U+00C0..U+00DE without the multiplication sign U+00D7,
    each 32 below its lower-case letter. *)
Definition lower_char (c : ascii) : ascii :=
  let n := N_of_ascii c in
  if ((65 <=? n) && (n <=? 90)
      || (192 <=? n) && (n <=? 222) && negb (n =? 215))%N
  then ascii_of_N (n + 32)
  else c.

Fixpoint lower (s : string) : string :=
  match s with
  | EmptyString => EmptyString
  | String c s' => String (lower_char c) (lower s')
  end.

(** [s.startswith(p)], also [s[i:i + len(p)] == p] for the text [s] from
    position [i] on. *)
Fixpoint startswith (s p : string) {struct p} : bool :=
  match p with
  | EmptyString => true
  | String a p' =>
      match s with
      | EmptyString => false
      | String b s' => Ascii.eqb a b && startswith s' p'
      end
  end.

(** [t in s] on two strs: [t] occurs in [s] as a contiguous substring. *)
Fixpoint str_in (t s : string) : bool :=
  startswith s t ||
  match s with
  | EmptyString => false
  | String _ s' => str_in t s'
  end.

(** [d[k]] lookup, [d[k] = v] assignment and [d.update(other)] on a dict
    in insertion order: assignment to a present key keeps its position. *)
Fixpoint dict_get (d : dict) (k : string) : option value :=
  match d with
  | [] => None
  | (k', v) :: d' => if String.eqb k' k then Some v else dict_get d' k
  end.

Fixpoint dict_set (d : dict) (k : string) (v : value) : dict :=
  match d with
  | [] => [(k, v)]
  | (k', v') :: d' =>
      if String.eqb k' k then (k', v) :: d' else (k', v') :: dict_set d' k v
  end.

Definition dict_update (d other : dict) : dict :=
  fold_left (fun acc kv => dict_set acc (fst kv) (snd kv)) other d.

(** [v[k]] with a str key [k]. *)
Definition getitem (v : value) (k : string) : outcome value :=
  match v with
  | VDict d =>
      match dict_get d k with
      | Some x => Return x
      | None => Raise KeyError
      end
  | _ => Raise TypeError
  end.

(** [v.lower()]: only a str has the method. *)
Definition str_lower (v : value) : outcome string :=
  match v with
  | VStr s => Return (lower s)
  | _ => Raise AttributeError
  end.

(** Truth value of [v] in a condition. *)
Definition truthy (v : value) : bool :=
  match v with
  | VNone => false
  | VBool b => b
  | VInt n => negb (n =? 0)%Z
  | VStr s => negb (String.eqb s "")
  | VList l => match l with [] => false | _ => true end
  | VDict d => match d with [] => false | _ => true end
  end.

Fixpoint chars (s : string) : list value :=
  match s with
  | EmptyString => []
  | String c s' => VStr (String c EmptyString) :: chars s'
  end.

(** The elements [for x in v] visits. *)
Definition iter (v : value) : outcome (list value) :=
  match v with
  | VList l => Return l
  | VDict d => Return (map (fun kv => VStr (fst kv)) d)
  | VStr s => Return (chars s)
  | _ => Raise TypeError
  end.

(** [len(v)]. *)
Definition len (v : value) : outcome Z :=
  match v with
  | VList l => Return (Z.of_nat (List.length l))
  | VDict d => Return (Z.of_nat (List.length d))
  | VStr s => Return (Z.of_nat (String.length s))
  | _ => Raise TypeError
  end.

(** A number as an arithmetic expression yields it: an int or a binary64
    float. *)
Inductive number : Type :=
| NInt (n : Z)
| NFloat (f : spec_float).

Definition prec : Z := 53.
Definition emax : Z := 1024.

(** Conversion of an int to float, exact for [|n| <= 2^53]. *)
Definition float_of_int (n : Z) : spec_float :=
  binary_normalize prec emax n 0 false.

Definition exactly_convertible (n : Z) : bool :=
  (Z.abs n <=? 2 ^ 53)%Z.

(** [a / b] on two ints: the correctly rounded quotient, which is the
    quotient of the two conversions when both are exact. *)
Definition int_truediv (a b : Z) : outcome spec_float :=
  if (b =? 0)%Z then Raise ZeroDivisionError
  else if exactly_convertible a && exactly_convertible b
  then Return (SFdiv prec emax (float_of_int a) (float_of_int b))
  else Unmodelled.

(** [x * n] for a float [x] and an int [n]. *)
Definition float_mul_int (x : spec_float) (n : Z) : outcome spec_float :=
  if exactly_convertible n
  then Return (SFmul prec emax x (float_of_int n))
  else Unmodelled.

End Py.

Export Py.

Notation "x <- m ;; k" := (bind m (fun x => k))
  (at level 61, m at next level, right associativity).

(** ** The [json] codec: [json.dump(obj, fp, indent=4)] and [json.load(fp)] *)

Module Json.

Local Open Scope string_scope.

Definition dquote : ascii := "034"%char.
Definition backslash : ascii := "092"%char.
Definition newline : ascii := "010"%char.

(** *** Encoder *)

Definition hex_digit (n : N) : ascii :=
  if (n <? 10)%N then ascii_of_N (48 + n) else ascii_of_N (87 + n).

(** One character of a str under [ensure_ascii=True]: the two-character
    escapes of [ESCAPE_DCT], the printable ASCII range as it is, and
    [\u00xx] for everything else. *)
Definition escape_char (c : ascii) : string :=
  let n := N_of_ascii c in
  if (n =? 34)%N then String backslash (String dquote "")
  else if (n =? 92)%N then String backslash (String backslash "")
  else if (n =? 10)%N then String backslash "n"
  else if (n =? 13)%N then String backslash "r"
  else if (n =? 9)%N then String backslash "t"
  else if (n =? 8)%N then String backslash "b"
  else if (n =? 12)%N then String backslash "f"
  else if ((32 <=? n) && (n <=? 126))%N then String c ""
  else String backslash
         (String "u" (String "0" (String "0"
            (String (hex_digit (n / 16)) (String (hex_digit (n mod 16)) ""))))).

Fixpoint escape (s : string) : string :=
  match s with
  | EmptyString => ""
  | String c s' => escape_char c ++ escape s'
  end.

Definition encode_basestring_ascii (s : string) : string :=
  String dquote (escape s ++ String dquote "").

(** [int.__repr__]. *)
Definition str_of_int (z : Z) : string :=
  match z with
  | Zneg p => String "-" (NilEmpty.string_of_uint (Pos.to_uint p))
  | _ => NilEmpty.string_of_uint (N.to_uint (Z.to_N z))
  end.

Fixpoint spaces (n : nat) : string :=
  match n with
  | O => ""
  | S n' => String " " (spaces n')
  end.

(** ['\n' + ' ' * (4 * level)]. *)
Definition newline_indent (level : nat) : string :=
  String newline (spaces (4 * level)).

(** The chunks of [_iterencode] at [_current_indent_level = level],
    concatenated; the item separator is [","] and the key separator
    [": "], the defaults when an indent is given. *)
Fixpoint iterencode (level : nat) (v : value) : string :=
  match v with
  | VNone => "null"
  | VBool true => "true"
  | VBool false => "false"
  | VInt n => str_of_int n
  | VStr s => encode_basestring_ascii s
  | VList [] => "[]"
  | VList (x :: l) =>
      "[" ++ newline_indent (S level) ++ iterencode (S level) x ++
      (fix items (l : list value) : string :=
         match l with
         | [] => ""
         | y :: l' =>
             "," ++ newline_indent (S level) ++ iterencode (S level) y ++ items l'
         end) l ++
      newline_indent level ++ "]"
  | VDict [] => "{}"
  | VDict ((k, x) :: d) =>
      "{" ++ newline_indent (S level) ++
      encode_basestring_ascii k ++ ": " ++ iterencode (S level) x ++
      (fix members (d : list (string * value)) : string :=
         match d with
         | [] => ""
         | (k', y) :: d' =>
             "," ++ newline_indent (S level) ++
             encode_basestring_ascii k' ++ ": " ++ iterencode (S level) y ++
             members d'
         end) d ++
      newline_indent level ++ "}"
  end.

Definition json_dumps (v : value) : string := iterencode 0 v.

(** *** Decoder *)

Definition json_error {A : Type} : outcome A := Raise JSONDecodeError.

Definition is_ws (c : ascii) : bool :=
  let n := N_of_ascii c in
  ((n =? 32) || (n =? 9) || (n =? 10) || (n =? 13))%N.

Fixpoint skip_ws (s : string) : string :=
  match s with
  | EmptyString => ""
  | String c r => if is_ws c then skip_ws r else s
  end.

Definition hex_value (c : ascii) : option N :=
  let n := N_of_ascii c in
  if ((48 <=? n) && (n <=? 57))%N then Some (n - 48)%N
  else if ((65 <=? n) && (n <=? 70))%N then Some (n - 55)%N
  else if ((97 <=? n) && (n <=? 102))%N then Some (n - 87)%N
  else None.

Definition hex4 (h1 h2 h3 h4 : ascii) : option N :=
  match hex_value h1, hex_value h2, hex_value h3, hex_value h4 with
  | Some a, Some b, Some c, Some d => Some (((a * 16 + b) * 16 + c) * 16 + d)%N
  | _, _, _, _ => None
  end.

(** The [BACKSLASH] table of the decoder. *)
Definition unescape (e : ascii) : option ascii :=
  let n := N_of_ascii e in
  if (n =? 34)%N then Some dquote
  else if (n =? 92)%N then Some backslash
  else if (n =? 47)%N then Some "/"%char
  else if (n =? 98)%N then Some "008"%char
  else if (n =? 102)%N then Some "012"%char
  else if (n =? 110)%N then Some "010"%char
  else if (n =? 114)%N then Some "013"%char
  else if (n =? 116)%N then Some "009"%char
  else None.

(** [scanstring] in strict mode, from just after the opening quote: the
    decoded str and the text after the closing quote. *)
Fixpoint scanstring (s : string) : outcome (string * string) :=
  match s with
  | EmptyString => json_error
  | String c r =>
      if Ascii.eqb c dquote then Return ("", r)
      else if Ascii.eqb c backslash then
        match r with
        | EmptyString => json_error
        | String e r1 =>
            if Ascii.eqb e "u" then
              match r1 with
              | String h1 (String h2 (String h3 (String h4 r2))) =>
                  match hex4 h1 h2 h3 h4 with
                  | Some n =>
                      if (n <? 256)%N then
                        p <- scanstring r2 ;;
                        Return (String (ascii_of_N n) (fst p), snd p)
                      else Unmodelled
                  | None => json_error
                  end
              | _ => json_error
              end
            else
              match unescape e with
              | Some ch =>
                  p <- scanstring r1 ;; Return (String ch (fst p), snd p)
              | None => json_error
              end
        end
      else if (N_of_ascii c <? 32)%N then json_error
      else p <- scanstring r ;; Return (String c (fst p), snd p)
  end.

Definition digit_of_char (c : ascii) : option (uint -> uint) :=
  let n := N_of_ascii c in
  if (n =? 48)%N then Some D0
  else if (n =? 49)%N then Some D1
  else if (n =? 50)%N then Some D2
  else if (n =? 51)%N then Some D3
  else if (n =? 52)%N then Some D4
  else if (n =? 53)%N then Some D5
  else if (n =? 54)%N then Some D6
  else if (n =? 55)%N then Some D7
  else if (n =? 56)%N then Some D8
  else if (n =? 57)%N then Some D9
  else None.

Definition is_digit (c : ascii) : bool :=
  match digit_of_char c with Some _ => true | None => false end.

(** The longest run of decimal digits at the head of [s], and the rest. *)
Fixpoint scan_digits (s : string) : uint * string :=
  match s with
  | EmptyString => (Nil, "")
  | String c r =>
      match digit_of_char c with
      | Some D => let p := scan_digits r in (D (fst p), snd p)
      | None => (Nil, s)
      end
  end.

Definition starts_with_digit (s : string) : bool :=
  match s with
  | String c _ => is_digit c
  | EmptyString => false
  end.

(** Whether the fraction group [\.\d+] or the exponent group
    [[eE][-+]?\d+] of [NUMBER_RE] matches at the head of [s]. *)
Definition starts_frac (s : string) : bool :=
  match s with
  | String c r => Ascii.eqb c "." && starts_with_digit r
  | EmptyString => false
  end.

Definition starts_exp (s : string) : bool :=
  match s with
  | String c r =>
      (Ascii.eqb c "e" || Ascii.eqb c "E") &&
      (starts_with_digit r ||
       match r with
       | String sg r' =>
           (Ascii.eqb sg "+" || Ascii.eqb sg "-") && starts_with_digit r'
       | EmptyString => false
       end)
  | EmptyString => false
  end.

(** [match_number]: [None] when [NUMBER_RE] does not match at the head of
    [s]; a literal with a fraction or an exponent is a float. *)
Definition match_number (s : string) : option (outcome (value * string)) :=
  let neg := match s with String c _ => Ascii.eqb c "-" | EmptyString => false end in
  let s1 := if neg then match s with String _ r => r | EmptyString => "" end else s in
  match s1 with
  | EmptyString => None
  | String c r =>
      if is_digit c then
        let p := if Ascii.eqb c "0" then (D0 Nil, r) else scan_digits s1 in
        if starts_frac (snd p) || starts_exp (snd p) then Some Unmodelled
        else
          let n := Z.of_N (N.of_uint (fst p)) in
          Some (Return (VInt (if neg then (- n)%Z else n), snd p))
      else None
  end.

Fixpoint drop (n : nat) (s : string) : string :=
  match n, s with
  | S n', String _ r => drop n' r
  | _, _ => s
  end.

(** The branches of [scan_once] for the constants and the numbers. *)
Definition scan_constant (s : string) : outcome (value * string) :=
  if startswith s "null" then Return (VNone, drop 4 s)
  else if startswith s "true" then Return (VBool true, drop 4 s)
  else if startswith s "false" then Return (VBool false, drop 5 s)
  else
    match match_number s with
    | Some r => r
    | None =>
        if startswith s "NaN" || startswith s "Infinity"
           || startswith s "-Infinity"
        then Unmodelled
        else json_error
    end.

(** [scan_once], [JSONArray] from the first element and [JSONObject] from
    the first key; [fuel] bounds the nesting of calls. *)
Fixpoint scan_once (fuel : nat) (s : string) {struct fuel}
  : outcome (value * string) :=
  match fuel with
  | O => Unmodelled
  | S fuel' =>
      match s with
      | EmptyString => json_error
      | String c r =>
          if Ascii.eqb c dquote then
            p <- scanstring r ;; Return (VStr (fst p), snd p)
          else if Ascii.eqb c "{" then
            match skip_ws r with
            | String c1 r1 =>
                if Ascii.eqb c1 "}" then Return (VDict [], r1)
                else object_items fuel' (skip_ws r) []
            | EmptyString => json_error
            end
          else if Ascii.eqb c "[" then
            match skip_ws r with
            | String c1 r1 =>
                if Ascii.eqb c1 "]" then Return (VList [], r1)
                else array_items fuel' (skip_ws r) []
            | EmptyString => json_error
            end
          else scan_constant s
      end
  end

with array_items (fuel : nat) (s : string) (acc : list value) {struct fuel}
  : outcome (value * string) :=
  match fuel with
  | O => Unmodelled
  | S fuel' =>
      p <- scan_once fuel' s ;;
      let values := (acc ++ [fst p])%list in
      match skip_ws (snd p) with
      | String c r =>
          if Ascii.eqb c "]" then Return (VList values, r)
          else if Ascii.eqb c "," then array_items fuel' (skip_ws r) values
          else json_error
      | EmptyString => json_error
      end
  end

with object_items (fuel : nat) (s : string) (acc : list (string * value))
  {struct fuel} : outcome (value * string) :=
  match fuel with
  | O => Unmodelled
  | S fuel' =>
      match s with
      | EmptyString => json_error
      | String q r =>
          if Ascii.eqb q dquote then
            k <- scanstring r ;;
            match skip_ws (snd k) with
            | String c r1 =>
                if Ascii.eqb c ":" then
                  p <- scan_once fuel' (skip_ws r1) ;;
                  let pairs := (acc ++ [(fst k, fst p)])%list in
                  match skip_ws (snd p) with
                  | String c2 r2 =>
                      if Ascii.eqb c2 "}" then
                        Return (VDict (dict_update [] pairs), r2)
                      else if Ascii.eqb c2 "," then
                        object_items fuel' (skip_ws r2) pairs
                      else json_error
                  | EmptyString => json_error
                  end
                else json_error
            | EmptyString => json_error
            end
          else json_error
      end
  end.

(** [json.loads(s)]: one value between optional whitespace.  Each level of
    nesting takes two units of fuel and at least one character. *)
Definition json_loads (s : string) : outcome value :=
  p <- scan_once (S (2 * String.length s)) (skip_ws s) ;;
  match skip_ws (snd p) with
  | EmptyString => Return (fst p)
  | String _ _ => json_error
  end.

End Json.

Export Json.

(** ** The file system *)

Module Fs.

(** Files by path, and the log of the writes made so far, oldest first. *)
Record World : Type := mkWorld {
  files : list (string * string);
  writes : list (string * string)
}.

Fixpoint lookup (fs : list (string * string)) (path : string) : option string :=
  match fs with
  | [] => None
  | (p, text) :: fs' => if String.eqb p path then Some text else lookup fs' path
  end.

Fixpoint store (fs : list (string * string)) (path text : string)
  : list (string * string) :=
  match fs with
  | [] => [(path, text)]
  | (p, t) :: fs' =>
      if String.eqb p path then (p, text) :: fs' else (p, t) :: store fs' path text
  end.

(** [open(path, "r").read()]. *)
Definition read_text (w : World) (path : string) : outcome string :=
  match lookup (files w) path with
  | Some text => Return text
  | None => Raise FileNotFoundError
  end.

(** [open(path, "w").write(text)]: the file is created or overwritten. *)
Definition write_text (w : World) (path text : string) : World :=
  {| files := store (files w) path text;
     writes := writes w ++ [(path, text)] |}.

End Fs.

Export Fs.

(** ** [class BookCollection] *)

Record BookCollection : Type := mkBookCollection {
  books_list : value;
  storage_file : string
}.

Definition set_books_list (self : BookCollection) (v : value) : BookCollection :=
  {| books_list := v; storage_file := storage_file self |}.

(** [json.load(file)] on the opened storage file. *)
Definition json_load (w : World) (path : string) : outcome value :=
  text <- read_text w path ;; json_loads text.

Definition read_from_file (self : BookCollection) (w : World)
  : outcome BookCollection :=
  match json_load w (storage_file self) with
  | Return v => Return (set_books_list self v)
  | Raise FileNotFoundError => Return (set_books_list self (VList []))
  | Raise JSONDecodeError => Return (set_books_list self (VList []))
  | Raise e => Raise e
  | Unmodelled => Unmodelled
  end.

Definition init (w : World) : outcome BookCollection :=
  read_from_file {| books_list := VList []; storage_file := "books.json" |} w.

Definition save_to_file (self : BookCollection) (w : World) : World :=
  write_text w (storage_file self) (json_dumps (books_list self)).

(** [lst.append(x)]: only a list has the method. *)
Definition append (lst x : value) : outcome value :=
  match lst with
  | VList l => Return (VList (l ++ [x]))
  | _ => Raise AttributeError
  end.

(** [today] is [datetime.now().strftime("%Y-%m-%d")]. *)
Definition add_book (self : BookCollection) (title author year genre read : value)
  (today : string) (w : World) : outcome (BookCollection * World) :=
  let new_book :=
    VDict [("title", title); ("author", author); ("year", year);
           ("genre", genre); ("read", read); ("date_added", VStr today)] in
  l <- append (books_list self) new_book ;;
  let self' := set_books_list self l in
  Return (self', save_to_file self' w).

(** [book["title"].lower() == title.lower()], operands left to right. *)
Definition title_is (book title : value) : outcome bool :=
  t <- getitem book "title" ;;
  a <- str_lower t ;;
  b <- str_lower title ;;
  Return (String.eqb a b).

(** [[book for book in books if book["title"].lower() != title.lower()]]. *)
Fixpoint without_title (books : list value) (title : value)
  : outcome (list value) :=
  match books with
  | [] => Return []
  | book :: rest =>
      same <- title_is book title ;;
      kept <- without_title rest title ;;
      Return (if same then kept else book :: kept)
  end.

Definition delete_book (self : BookCollection) (title : value) (w : World)
  : outcome (BookCollection * World) :=
  books <- iter (books_list self) ;;
  kept <- without_title books title ;;
  let self' := set_books_list self (VList kept) in
  Return (self', save_to_file self' w).

(** [book.update(new_data)] on a record. *)
Definition update (book : value) (new_data : dict) : outcome value :=
  match book with
  | VDict d => Return (VDict (dict_update d new_data))
  | _ => Raise AttributeError
  end.

(** The loop of [update_book]: [None] when it runs to its end, else the
    elements with the first record of that title updated in place. *)
Fixpoint update_first (books : list value) (title : value) (new_data : dict)
  : outcome (option (list value)) :=
  match books with
  | [] => Return None
  | book :: rest =>
      same <- title_is book title ;;
      if same then
        book' <- update book new_data ;;
        Return (Some (book' :: rest))
      else
        r <- update_first rest title new_data ;;
        Return (option_map (cons book) r)
  end.

(** Only the elements of a list are records, so an update through the
    loop variable reaches [books_list] only when it is a list. *)
Definition with_elements (container : value) (books : list value) : value :=
  match container with
  | VList _ => VList books
  | other => other
  end.

Definition update_book (self : BookCollection) (title : value) (new_data : dict)
  (w : World) : outcome (bool * BookCollection * World) :=
  books <- iter (books_list self) ;;
  r <- update_first books title new_data ;;
  match r with
  | Some books' =>
      let self' := set_books_list self (with_elements (books_list self) books') in
      Return (true, self', save_to_file self' w)
  | None => Return (false, self, w)
  end.

(** [sum(1 for book in books if book["read"])]. *)
Fixpoint count_read (books : list value) : outcome Z :=
  match books with
  | [] => Return 0%Z
  | book :: rest =>
      r <- getitem book "read" ;;
      n <- count_read rest ;;
      Return (if truthy r then (1 + n)%Z else n)
  end.

Definition get_reading_stats (self : BookCollection)
  : outcome (Z * Z * number) :=
  total_books <- len (books_list self) ;;
  books <- iter (books_list self) ;;
  completed_books <- count_read books ;;
  completion_rate <-
    (if (0 <? total_books)%Z then
       q <- int_truediv completed_books total_books ;;
       x <- float_mul_int q 100 ;;
       Return (NFloat x)
     else Return (NInt 0)) ;;
  Return (total_books, completed_books, completion_rate).

(** ** The Streamlit script *)

(** What a handler shows: [st.success], [st.error], the cards of a list of
    books, [st.info], or nothing. *)
Inductive shown : Type :=
| Success (title : string)
| ErrorMessage
| Cards (books : list value)
| Info
| Nothing.

(** The submit branch of the form [add_book_form]. *)
Definition add_book_form (self : BookCollection)
  (title author : string) (year : Z) (genre : string) (read : bool)
  (today : string) (w : World) : outcome (shown * BookCollection * World) :=
  if truthy (VStr title) && truthy (VStr author) then
    r <- add_book self (VStr title) (VStr author) (VInt year) (VStr genre)
           (VBool read) today w ;;
    Return (Success title, fst r, snd r)
  else Return (ErrorMessage, self, w).

(** [needle.lower() in book[field].lower()]. *)
Definition field_contains (search_term : string) (book : value) (field : string)
  : outcome bool :=
  let needle := lower search_term in
  f <- getitem book field ;;
  hay <- str_lower f ;;
  Return (str_in needle hay).

(** [book["genre"] == filter_genre] for a str [filter_genre]. *)
Definition genre_is (book : value) (filter_genre : string) : outcome bool :=
  g <- getitem book "genre" ;;
  Return (match g with VStr s => String.eqb s filter_genre | _ => false end).

(** The condition of the display loop of "View Collection". *)
Definition view_condition (search_term filter_genre : string) (book : value)
  : outcome bool :=
  in_title <- field_contains search_term book "title" ;;
  found <- (if in_title then Return true
            else field_contains search_term book "author") ;;
  if found then
    if String.eqb filter_genre "All" then Return true
    else genre_is book filter_genre
  else Return false.

Fixpoint view_loop (search_term filter_genre : string) (books : list value)
  : outcome (list value) :=
  match books with
  | [] => Return []
  | book :: rest =>
      c <- view_condition search_term filter_genre book ;;
      shown_rest <- view_loop search_term filter_genre rest ;;
      Return (if c then book :: shown_rest else shown_rest)
  end.

(** The books "View Collection" displays, in display order. *)
Definition view_collection (self : BookCollection)
  (search_term filter_genre : string) : outcome (list value) :=
  books <- iter (books_list self) ;;
  view_loop search_term filter_genre books.

(** The [if]/[elif] of the loop of "Search Books". *)
Definition search_condition (search_type search_term : string) (book : value)
  : outcome bool :=
  by_title <- (if String.eqb search_type "Title"
               then field_contains search_term book "title"
               else Return false) ;;
  if by_title then Return true
  else if String.eqb search_type "Author"
       then field_contains search_term book "author"
       else Return false.

Fixpoint search_loop (search_type search_term : string) (books : list value)
  : outcome (list value) :=
  match books with
  | [] => Return []
  | book :: rest =>
      c <- search_condition search_type search_term book ;;
      results <- search_loop search_type search_term rest ;;
      Return (if c then book :: results else results)
  end.

(** "Search Books": nothing is searched or shown for an empty term. *)
Definition search_books (self : BookCollection) (search_type search_term : string)
  : outcome shown :=
  if truthy (VStr search_term) then
    books <- iter (books_list self) ;;
    results <- search_loop search_type search_term books ;;
    Return (if truthy (VList results) then Cards results else Info)
  else Return Nothing.

(** ** Vocabulary of the specification *)

(** The str stored under [field], if the book is a dict that has one. *)
Definition field_str (book : value) (field : string) : option string :=
  match book with
  | VDict d =>
      match dict_get d field with
      | Some (VStr s) => Some s
      | _ => None
      end
  | _ => None
  end.

Definition has_str (field : string) (book : value) : bool :=
  match field_str book field with
  | Some _ => true
  | None => false
  end.

(** The record's title equals [title] when case is ignored. *)
Definition same_title (title : string) (book : value) : bool :=
  match field_str book "title" with
  | Some s => String.eqb (lower s) (lower title)
  | None => false
  end.

(** A collection: a list of records, each with a str title. *)
Definition titled (books : list value) : Prop :=
  Forall (fun book => has_str "title" book = true) books.

(** [needle] occurs in [hay] when case is ignored. *)
Definition ci_substring (needle hay : string) : Prop :=
  exists pre post, lower hay = (pre ++ lower needle ++ post)%string.

Definition contains_ci (needle field : string) (book : value) : bool :=
  match field_str book field with
  | Some s => str_in (lower needle) (lower s)
  | None => false
  end.

(** A collection to search: each record has a str title and author. *)
Definition searchable (books : list value) : Prop :=
  Forall (fun book => has_str "title" book = true /\ has_str "author" book = true)
    books.

(** The three scopes of a text search, and the code path of each: the
    display loop of "View Collection" with the genre filter on ["All"]
    searches title and author, "Search Books" title or author.  [None]
    stands for no search made. *)
Inductive scope : Type := ByTitle | ByAuthor | Both.

Definition results_of (s : shown) : option (list value) :=
  match s with
  | Cards books => Some books
  | Info => Some []
  | _ => None
  end.

Definition search (self : BookCollection) (term : string) (sc : scope)
  : outcome (option (list value)) :=
  match sc with
  | ByTitle => s <- search_books self "Title" term ;; Return (results_of s)
  | ByAuthor => s <- search_books self "Author" term ;; Return (results_of s)
  | Both => l <- view_collection self term "All" ;; Return (Some l)
  end.

Definition scope_fields (sc : scope) : list string :=
  match sc with
  | ByTitle => ["title"]
  | ByAuthor => ["author"]
  | Both => ["title"; "author"]
  end.

Definition in_scope (sc : scope) (term : string) (book : value) : bool :=
  match sc with
  | ByTitle => contains_ci term "title" book
  | ByAuthor => contains_ci term "author" book
  | Both => contains_ci term "title" book || contains_ci term "author" book
  end.

(** The flag stored under ["read"], if it is a bool. *)
Definition read_flag (book : value) : option bool :=
  match book with
  | VDict d =>
      match dict_get d "read" with
      | Some (VBool b) => Some b
      | _ => None
      end
  | _ => None
  end.

Definition is_read (book : value) : bool :=
  match read_flag book with
  | Some b => b
  | None => false
  end.

(** A Python dict has no key twice, at any depth. *)
Fixpoint distinct_keys (keys : list string) : bool :=
  match keys with
  | [] => true
  | k :: rest => negb (existsb (String.eqb k) rest) && distinct_keys rest
  end.

Fixpoint wf_value (v : value) : bool :=
  match v with
  | VList l => forallb wf_value l
  | VDict d =>
      distinct_keys (map fst d) && forallb (fun kv => wf_value (snd kv)) d
  | _ => true
  end.

(** The six fields of a record of the store format and their types. *)
Definition field_ok (kv : string * value) : bool :=
  let (k, v) := kv in
  if String.eqb k "title" then match v with VStr _ => true | _ => false end
  else if String.eqb k "author" then match v with VStr _ => true | _ => false end
  else if String.eqb k "year" then match v with VInt _ => true | _ => false end
  else if String.eqb k "genre" then match v with VStr _ => true | _ => false end
  else if String.eqb k "read" then match v with VBool _ => true | _ => false end
  else if String.eqb k "date_added" then match v with VStr _ => true | _ => false end
  else false.

Definition has_key (d : dict) (k : string) : bool :=
  match dict_get d k with
  | Some _ => true
  | None => false
  end.

(** A well-formed BookRecord: a dict of exactly the six fields, each of
    its type, in any order. *)
Definition well_formed_record (book : value) : bool :=
  match book with
  | VDict d =>
      distinct_keys (map fst d) && forallb field_ok d &&
      forallb (has_key d) ["title"; "author"; "year"; "genre"; "read"; "date_added"]
  | _ => false
  end.

(** ** Auxiliary definitions for the proofs about the codec *)

(** Induction on values through the lists and dicts they nest. *)
Section ValueInduction.

Variable P : value -> Prop.
Hypothesis HNone : P VNone.
Hypothesis HBool : forall b, P (VBool b).
Hypothesis HInt : forall n, P (VInt n).
Hypothesis HStr : forall s, P (VStr s).
Hypothesis HList : forall l, Forall P l -> P (VList l).
Hypothesis HDict : forall d, Forall (fun kv => P (snd kv)) d -> P (VDict d).

Fixpoint value_ind (v : value) : P v :=
  match v with
  | VNone => HNone
  | VBool b => HBool b
  | VInt n => HInt n
  | VStr s => HStr s
  | VList l =>
      HList l ((fix all (l : list value) : Forall P l :=
                  match l with
                  | [] => Forall_nil P
                  | x :: l' => Forall_cons x (value_ind x) (all l')
                  end) l)
  | VDict d =>
      HDict d ((fix all (d : list (string * value))
                  : Forall (fun kv => P (snd kv)) d :=
                  match d with
                  | [] => Forall_nil _
                  | kv :: d' => Forall_cons kv (value_ind (snd kv)) (all d')
                  end) d)
  end.

End ValueInduction.

(** The text after a number must not continue it. *)
Definition terminated (rest : string) : bool :=
  negb (starts_with_digit rest) && negb (starts_frac rest) && negb (starts_exp rest).

(** The first character of an encoded value is neither white space nor a
    closing bracket. *)
Definition value_head (c : ascii) : bool :=
  negb (is_ws c) && negb (Ascii.eqb c "]") && negb (Ascii.eqb c "}").

(** Fuel that [scan_once] needs to decode the encoding of a value. *)
Fixpoint need (v : value) : nat :=
  match v with
  | VList l =>
      S ((fix items (l : list value) : nat :=
            match l with
            | [] => 0
            | x :: l' => S (need x + items l')
            end) l)
  | VDict d =>
      S ((fix members (d : list (string * value)) : nat :=
            match d with
            | [] => 0
            | (_, x) :: d' => S (need x + members d')
            end) d)
  | _ => 1
  end.

Fixpoint items_need (l : list value) : nat :=
  match l with
  | [] => 0
  | x :: l' => S (need x + items_need l')
  end.

Fixpoint members_need (d : dict) : nat :=
  match d with
  | [] => 0
  | (_, x) :: d' => S (need x + members_need d')
  end.

(** The text [iterencode] writes for the elements after the first, before
    [tail]. *)
Fixpoint encode_items (level : nat) (l : list value) (tail : string) : string :=
  match l with
  | [] => tail
  | y :: l' =>
      String "," (newline_indent (S level) ++ iterencode (S level) y ++
                  encode_items level l' tail)%string
  end.

Fixpoint encode_members (level : nat) (d : dict) (tail : string) : string :=
  match d with
  | [] => tail
  | (k, y) :: d' =>
      String "," (newline_indent (S level) ++
                  String dquote (escape k ++ String dquote
                    (String ":" (String " " (iterencode (S level) y ++
                     encode_members level d' tail)))))%string
  end.

Definition roundtrips (v : value) : Prop :=
  forall level fuel rest,
    wf_value v = true -> need v <= fuel -> terminated rest = true ->
    scan_once fuel (iterencode level v ++ rest) = Return (v, rest).

Definition fits (v : value) : Prop :=
  forall level, need v <= String.length (iterencode level v).

(** Every scanner that returns has consumed some of its input. *)
Definition consumes (fuel : nat) : Prop :=
  (forall s v rest,
      scan_once fuel s = Return (v, rest) ->
      String.length rest < String.length s) /\
  (forall s acc v rest,
      array_items fuel s acc = Return (v, rest) ->
      String.length rest < String.length s) /\
  (forall s acc v rest,
      object_items fuel s acc = Return (v, rest) ->
      String.length rest < String.length s).

(** With fuel above twice the length of the input, more fuel changes
    nothing. *)
Definition fuel_independent (fuel : nat) : Prop :=
  (forall s fuel',
      2 * String.length s < fuel -> fuel <= fuel' ->
      scan_once fuel' s = scan_once fuel s) /\
  (forall s acc fuel',
      2 * String.length s + 1 < fuel -> fuel <= fuel' ->
      array_items fuel' s acc = array_items fuel s acc) /\
  (forall s acc fuel',
      2 * String.length s + 1 < fuel -> fuel <= fuel' ->
      object_items fuel' s acc = object_items fuel s acc).

(** The decoder raises nothing but [JSONDecodeError]. *)
Definition decode_errors_only {A : Type} (m : outcome A) : Prop :=
  forall e, m = Raise e -> e = JSONDecodeError.

(** ** Sample data: the scenario of the specification *)

Definition record (title author : string) (year : Z) (genre : string)
  (read : bool) (date_added : string) : value :=
  VDict [("title", VStr title); ("author", VStr author); ("year", VInt year);
         ("genre", VStr genre); ("read", VBool read);
         ("date_added", VStr date_added)].

Definition dune : value :=
  record "Dune" "Herbert" 1965 "Science Fiction" false "2024-01-15".

Definition dune_upper : value :=
  record "DUNE" "Other" 1970 "Fiction" true "2024-01-16".

Definition foundation : value :=
  record "Foundation" "Asimov" 1951 "Science Fiction" true "2024-01-17".

Definition dune_messiah : value :=
  record "Dune Messiah" "Herbert" 1969 "Science Fiction" false "2024-01-18".

Definition collection_of (books : list value) : BookCollection :=
  {| books_list := VList books; storage_file := "books.json" |}.

(** A world without the storage file, and one that holds [text] in it. *)
Definition no_file : World := {| files := []; writes := [] |}.

Definition file_with (text : string) : World :=
  {| files := [("books.json", text)]; writes := [] |}.

(** ** The rest of the script *)

(** The "Delete" button beside a displayed book:
    [delete_book(book["title"])]. *)
Definition delete_button (self : BookCollection) (book : value) (w : World)
  : outcome (BookCollection * World) :=
  title <- getitem book "title" ;;
  delete_book self title w.

(** A list or a dict has no hash and is no dict key. *)
Definition hashable (v : value) : bool :=
  match v with
  | VList _ => false
  | VDict _ => false
  | _ => true
  end.

(** [a == b] on two hashable values: [None] equals itself, a str equals
    the same str, and the ints compare by value with [False] as 0 and
    [True] as 1. *)
Definition key_eqb (a b : value) : bool :=
  match a, b with
  | VNone, VNone => true
  | VStr s, VStr t => String.eqb s t
  | VBool x, VBool y => Bool.eqb x y
  | VBool x, VInt n => Z.eqb (if x then 1 else 0) n
  | VInt n, VBool y => Z.eqb n (if y then 1 else 0)
  | VInt n, VInt m => Z.eqb n m
  | _, _ => false
  end.

(** [genres.get(k, default)] and [genres[k] = n] on the dict of counts, in
    insertion order; an assignment to a present key keeps the key. *)
Fixpoint tally_get (genres : list (value * Z)) (k : value) (default : Z) : Z :=
  match genres with
  | [] => default
  | (k', n) :: rest => if key_eqb k' k then n else tally_get rest k default
  end.

Fixpoint tally_set (genres : list (value * Z)) (k : value) (n : Z)
  : list (value * Z) :=
  match genres with
  | [] => [(k, n)]
  | (k', n') :: rest =>
      if key_eqb k' k then (k', n) :: rest else (k', n') :: tally_set rest k n
  end.

(** The loop of "Genre Distribution":
    [genres[book["genre"]] = genres.get(book["genre"], 0) + 1], the right
    side first. *)
Fixpoint tally_loop (books : list value) (genres : list (value * Z))
  : outcome (list (value * Z)) :=
  match books with
  | [] => Return genres
  | book :: rest =>
      g <- getitem book "genre" ;;
      n <- (if hashable g then Return (tally_get genres g 0 + 1)%Z
            else Raise TypeError) ;;
      k <- getitem book "genre" ;;
      tally_loop rest (tally_set genres k n)
  end.

Definition genre_distribution (self : BookCollection)
  : outcome (list (value * Z)) :=
  books <- iter (books_list self) ;;
  tally_loop books [].

(** What the page shows under "Genre Distribution": [st.bar_chart(genres)]
    or the [st.info] of an empty collection. *)
Inductive chart : Type :=
| BarChart (genres : list (value * Z))
| NoBooks.

(** The page "Reading Stats": the three numbers of the cards, then the
    chart. *)
Definition reading_stats_page (self : BookCollection)
  : outcome (Z * Z * number * chart) :=
  stats <- get_reading_stats self ;;
  genres <- genre_distribution self ;;
  Return (stats, match genres with [] => NoBooks | _ => BarChart genres end).

(** ** Vocabulary of the further properties *)

Definition has_field (field : string) (book : value) : bool :=
  match book with
  | VDict d => has_key d field
  | _ => false
  end.

(** The record counts as read: its [read] value is true in a condition. *)
Definition read_truthy (book : value) : bool :=
  match book with
  | VDict d =>
      match dict_get d "read" with
      | Some v => truthy v
      | None => false
      end
  | _ => false
  end.

(** The record's genre is the str [genre], case and all. *)
Definition genre_is_str (genre : string) (book : value) : bool :=
  match field_str book "genre" with
  | Some s => String.eqb s genre
  | None => false
  end.

(** The record has a title and an author that are not empty. *)
Definition named (book : value) : bool :=
  match field_str book "title", field_str book "author" with
  | Some t, Some a => negb (String.eqb t "") && negb (String.eqb a "")
  | _, _ => false
  end.

(** A character [json.dump] writes: printable ASCII or a newline. *)
Definition plain (c : ascii) : bool :=
  let n := N_of_ascii c in
  ((n =? 10) || (32 <=? n) && (n <=? 126))%N.

Fixpoint all_plain (s : string) : bool :=
  match s with
  | EmptyString => true
  | String c s' => plain c && all_plain s'
  end.

Fixpoint total_count (genres : list (value * Z)) : Z :=
  match genres with
  | [] => 0
  | (_, n) :: rest => (n + total_count rest)%Z
  end.

(** * Facts *)

(** ** The codec: decoding an encoding *)

Module CodecFacts.

Local Open Scope string_scope.

Lemma append_assoc (a b c : string) : (a ++ b) ++ c = a ++ (b ++ c).
Proof. induction a as [|x a IH]; simpl; [reflexivity | now rewrite IH]. Qed.

Lemma length_append (a b : string) :
  String.length (a ++ b) = String.length a + String.length b.
Proof. induction a as [|x a IH]; simpl; [reflexivity | now rewrite IH]. Qed.

Lemma scanstring_escape_char (c : ascii) (t : string) :
  scanstring (escape_char c ++ t) =
  (p <- scanstring t ;; Return (String c (fst p), snd p)).
Proof.
  destruct c as [[] [] [] [] [] [] [] []]; reflexivity.
Qed.

Lemma scanstring_escape (s rest : string) :
  scanstring (escape s ++ String dquote rest) = Return (s, rest).
Proof.
  induction s as [|c s IH]; [reflexivity|].
  cbn [escape]. rewrite append_assoc, scanstring_escape_char, IH. reflexivity.
Qed.

Lemma scan_digits_string_of_uint (d : uint) (rest : string) :
  starts_with_digit rest = false ->
  scan_digits (NilEmpty.string_of_uint d ++ rest) = (d, rest).
Proof.
  intros H. induction d; cbn [NilEmpty.string_of_uint String.append];
    try (cbn [scan_digits]; rewrite IHd; reflexivity).
  destruct rest as [|c r]; [reflexivity|].
  cbn [scan_digits]. cbn [starts_with_digit] in H. unfold is_digit in H.
  destruct (digit_of_char c); [discriminate | reflexivity].
Qed.

Lemma pos_to_uint_no_leading_zero (p : positive) (d : uint) :
  Pos.to_uint p <> D0 d.
Proof.
  intros H.
  pose proof (DecimalPos.Unsigned.to_of (Pos.to_uint p)) as E.
  rewrite DecimalPos.Unsigned.of_to in E. cbn [N.to_uint] in E.
  rewrite H, unorm_D0 in E. unfold unorm in E.
  destruct (nzhead d) eqn:Hd; try (apply (nzhead_nonzero d d); congruence).
  injection E as ->. exact (DecimalPos.Unsigned.to_uint_nonzero p H).
Qed.

Lemma match_number_digits (neg : bool) (p : positive) (rest : string) :
  terminated rest = true ->
  match_number
    ((if neg then String "-" else fun s => s)
       (NilEmpty.string_of_uint (Pos.to_uint p) ++ rest)) =
  Some (Return (VInt (if neg then Zneg p else Zpos p), rest)).
Proof.
  unfold terminated. intros T.
  apply andb_prop in T as [T T3]. apply andb_prop in T as [T1 T2].
  apply negb_true_iff in T1, T2, T3.
  pose proof (DecimalPos.Unsigned.of_to p) as E.
  change (N.of_uint (Pos.to_uint p) = Npos p) in E.
  pose proof (scan_digits_string_of_uint (Pos.to_uint p) rest T1) as S.
  pose proof (DecimalPos.Unsigned.to_uint_nonnil p) as N0.
  pose proof (pos_to_uint_no_leading_zero p) as N1.
  destruct (Pos.to_uint p) as [|d|d|d|d|d|d|d|d|d|d];
    [ congruence | exfalso; exact (N1 d eq_refl) | .. ];
    destruct neg; unfold match_number;
    cbn [NilEmpty.string_of_uint String.append Ascii.eqb Bool.eqb is_digit digit_of_char
         N_of_ascii N_of_digits N.eqb Pos.eqb N.add N.mul Pos.add Pos.mul Pos.succ] in *;
    rewrite S; cbn [fst snd]; rewrite T2, T3; cbn [orb]; rewrite E; reflexivity.
Qed.

Lemma match_number_str_of_int (n : Z) (rest : string) :
  terminated rest = true ->
  match_number (str_of_int n ++ rest) = Some (Return (VInt n, rest)).
Proof.
  intros T. destruct n as [|p|p].
  - unfold terminated in T.
    apply andb_prop in T as [T T3]. apply andb_prop in T as [T1 T2].
    apply negb_true_iff in T2, T3.
    cbn. rewrite T2, T3. reflexivity.
  - exact (match_number_digits false p rest T).
  - exact (match_number_digits true p rest T).
Qed.

Lemma need_list l : need (VList l) = S (items_need l).
Proof. reflexivity. Qed.

Lemma need_dict d : need (VDict d) = S (members_need d).
Proof. reflexivity. Qed.

Ltac norm_append :=
  repeat first [rewrite append_assoc | progress cbn [String.append]].

Lemma iterencode_list level x l rest :
  iterencode level (VList (x :: l)) ++ rest =
  String "[" (newline_indent (S level) ++ iterencode (S level) x ++
              encode_items level l (newline_indent level ++ String "]" rest)).
Proof.
  cbn [iterencode]. norm_append. do 3 f_equal.
  generalize (newline_indent level ++ String "]" rest). intros tail.
  induction l as [|y l IH]; [reflexivity|].
  cbn [encode_items]. norm_append. do 3 f_equal. exact IH.
Qed.

Lemma iterencode_dict level k x d rest :
  iterencode level (VDict ((k, x) :: d)) ++ rest =
  String "{" (newline_indent (S level) ++
              String dquote (escape k ++ String dquote
                (String ":" (String " " (iterencode (S level) x ++
                 encode_members level d (newline_indent level ++ String "}" rest)))))).
Proof.
  cbn [iterencode]. unfold encode_basestring_ascii. norm_append. do 8 f_equal.
  generalize (newline_indent level ++ String "}" rest). intros tail.
  induction d as [|[k' y] d IH]; [reflexivity|].
  cbn [encode_members]. norm_append. do 8 f_equal. exact IH.
Qed.

Lemma skip_ws_head c t : is_ws c = false -> skip_ws (String c t) = String c t.
Proof. intros H. cbn [skip_ws]. now rewrite H. Qed.

Lemma skip_ws_spaces n t : skip_ws (spaces n ++ t) = skip_ws t.
Proof. induction n as [|n IH]; [reflexivity | exact IH]. Qed.

Lemma skip_ws_indent level t : skip_ws (newline_indent level ++ t) = skip_ws t.
Proof. unfold newline_indent. cbn [String.append skip_ws]. apply skip_ws_spaces. Qed.

Lemma str_of_int_head n rest :
  exists c t, str_of_int n ++ rest = String c t /\
              (Ascii.eqb c "-" || is_digit c) = true.
Proof.
  destruct n as [|p|p]; cbn [str_of_int Z.to_N N.to_uint String.append].
  - eexists _, _. split; reflexivity.
  - pose proof (DecimalPos.Unsigned.to_uint_nonnil p) as N0.
    destruct (Pos.to_uint p); [congruence | ..];
      cbn [NilEmpty.string_of_uint String.append]; eexists _, _; split; reflexivity.
  - eexists _, _. split; reflexivity.
Qed.

Lemma number_head c :
  (Ascii.eqb c "-" || is_digit c) = true ->
  Ascii.eqb c dquote = false /\ Ascii.eqb c "{" = false /\ Ascii.eqb c "[" = false /\
  Ascii.eqb c "n" = false /\ Ascii.eqb c "t" = false /\ Ascii.eqb c "f" = false /\
  value_head c = true.
Proof.
  destruct c as [[] [] [] [] [] [] [] []]; cbn; intros H;
    try discriminate H; repeat split; reflexivity.
Qed.

Lemma iterencode_head level v rest :
  exists c t, iterencode level v ++ rest = String c t /\ value_head c = true.
Proof.
  destruct v as [|[]|n|s|[|x l]|[|[k x] d]];
    try (eexists _, _; split; reflexivity).
  destruct (str_of_int_head n rest) as (c & t & E & H).
  exists c, t. split; [exact E|]. now apply number_head.
Qed.

Lemma skip_ws_iterencode level v rest :
  skip_ws (iterencode level v ++ rest) = iterencode level v ++ rest.
Proof.
  destruct (iterencode_head level v rest) as (c & t & -> & H).
  apply skip_ws_head. unfold value_head in H.
  destruct (is_ws c); [discriminate | reflexivity].
Qed.

Lemma scan_once_number fuel s r :
  match_number s = Some r -> scan_once (S fuel) s = r.
Proof.
  intros H. destruct s as [|c t]; [discriminate|].
  assert (Hc : (Ascii.eqb c "-" || is_digit c) = true).
  { unfold match_number in H. destruct (Ascii.eqb c "-"); [reflexivity|].
    cbn [orb]. destruct (is_digit c); [reflexivity | discriminate]. }
  destruct (number_head c Hc) as (H1 & H2 & H3 & H4 & H5 & H6 & _).
  cbn [scan_once]. rewrite H1, H2, H3. unfold scan_constant.
  cbn [startswith]. rewrite (Ascii.eqb_sym _ c), H4, (Ascii.eqb_sym _ c), H5,
    (Ascii.eqb_sym _ c), H6. cbn [andb]. now rewrite H.
Qed.

Lemma terminated_items level l level' c rest :
  (Ascii.eqb c "]" || Ascii.eqb c "}") = true ->
  terminated (encode_items level l (newline_indent level' ++ String c rest)) = true.
Proof. destruct l; reflexivity. Qed.

Lemma terminated_members level d level' c rest :
  terminated (encode_members level d (newline_indent level' ++ String c rest)) = true.
Proof. destruct d as [|[k y] d]; reflexivity. Qed.

Lemma array_items_encode level rest l :
  forall x acc fuel,
    Forall roundtrips (x :: l) ->
    forallb wf_value (x :: l) = true ->
    items_need (x :: l) <= fuel ->
    array_items fuel
      (iterencode (S level) x ++
       encode_items level l (newline_indent level ++ String "]" rest)) acc =
    Return (VList (acc ++ x :: l), rest).
Proof.
  induction l as [|y l IH]; intros x acc fuel R W F;
    inversion R as [|? ? Rx Rl]; subst;
    cbn [forallb] in W; apply andb_prop in W as [Wx Wl];
    cbn [items_need] in F; (destruct fuel as [|fuel]; [lia|]);
    cbn [array_items]; rewrite Rx by (try lia; auto using terminated_items);
    cbn [bind fst snd encode_items].
  - rewrite skip_ws_indent. reflexivity.
  - rewrite skip_ws_head by reflexivity. simpl (Ascii.eqb _ _). cbv iota.
    rewrite skip_ws_indent, skip_ws_iterencode.
    rewrite IH; [ | assumption | assumption | cbn [items_need]; lia ].
    now rewrite <- List.app_assoc.
Qed.

Lemma dict_set_fresh (acc : dict) k v tail :
  distinct_keys (map fst acc ++ k :: tail) = true ->
  dict_set acc k v = (acc ++ [(k, v)])%list.
Proof.
  induction acc as [|[k' v'] acc IH]; cbn [map fst List.app distinct_keys dict_set];
    [reflexivity|].
  intros H. apply andb_prop in H as [H1 H2]. apply negb_true_iff in H1.
  rewrite existsb_app in H1. apply orb_false_elim in H1 as [_ H1].
  cbn [existsb] in H1. apply orb_false_elim in H1 as [H1 _].
  rewrite H1, IH by exact H2. reflexivity.
Qed.

Lemma dict_update_distinct (d : dict) :
  forall acc, distinct_keys (map fst (acc ++ d)) = true ->
              dict_update acc d = (acc ++ d)%list.
Proof.
  unfold dict_update.
  induction d as [|[k v] d IH]; intros acc H; cbn [fold_left fst snd].
  - now rewrite List.app_nil_r.
  - rewrite map_app in H. cbn [map fst] in H.
    rewrite (dict_set_fresh acc k v (map fst d) H).
    rewrite IH; rewrite <- List.app_assoc; [reflexivity|].
    now rewrite map_app.
Qed.

Lemma object_items_encode level rest d :
  forall k x acc fuel,
    Forall (fun kv => roundtrips (snd kv)) ((k, x) :: d) ->
    forallb (fun kv => wf_value (snd kv)) ((k, x) :: d) = true ->
    members_need ((k, x) :: d) <= fuel ->
    object_items fuel
      (String dquote (escape k ++ String dquote
         (String ":" (String " " (iterencode (S level) x ++
          encode_members level d (newline_indent level ++ String "}" rest))))))
      acc =
    Return (VDict (dict_update [] (acc ++ (k, x) :: d)%list), rest).
Proof.
  induction d as [|[k' y] d IH]; intros k x acc fuel R W F;
    inversion R as [|? ? Rx Rl]; subst; cbn [snd] in Rx;
    cbn [forallb snd] in W; apply andb_prop in W as [Wx Wl];
    cbn [members_need] in F; (destruct fuel as [|fuel]; [lia|]);
    cbn [object_items]; simpl (Ascii.eqb dquote dquote); cbv iota;
    rewrite scanstring_escape; cbn [bind fst snd];
    rewrite skip_ws_head by reflexivity; simpl (Ascii.eqb _ _); cbv iota;
    change (skip_ws (String " " ?s)) with (skip_ws s);
    rewrite skip_ws_iterencode;
    rewrite Rx by (try lia; auto using terminated_members);
    cbn [bind fst snd encode_members].
  - rewrite skip_ws_indent. reflexivity.
  - rewrite skip_ws_head by reflexivity. simpl (Ascii.eqb _ _). cbv iota.
    rewrite skip_ws_indent. rewrite skip_ws_head by reflexivity.
    rewrite IH; [ | assumption | assumption | cbn [members_need]; lia ].
    now rewrite <- List.app_assoc.
Qed.

Theorem scan_once_iterencode (v : value) : roundtrips v.
Proof.
  induction v using value_ind; intros level fuel rest W F T;
    (destruct fuel as [|fuel]; [cbn in F; lia|]).
  - reflexivity.
  - destruct b; reflexivity.
  - apply scan_once_number, match_number_str_of_int, T.
  - cbn [iterencode]. unfold encode_basestring_ascii. norm_append.
    cbn [scan_once]. simpl (Ascii.eqb dquote dquote). cbv iota.
    rewrite scanstring_escape. reflexivity.
  - destruct l as [|x l]; [reflexivity|].
    rewrite iterencode_list. rewrite need_list in F. cbn [wf_value] in W.
    cbn [scan_once]. simpl (Ascii.eqb _ _). cbv iota.
    rewrite skip_ws_indent, skip_ws_iterencode.
    destruct (iterencode_head (S level) x
                (encode_items level l (newline_indent level ++ String "]" rest)))
      as (c & t & E & Hc).
    rewrite E. unfold value_head in Hc.
    apply andb_prop in Hc as [Hc _]. apply andb_prop in Hc as [_ Hc].
    apply negb_true_iff in Hc. rewrite Hc. rewrite <- E.
    apply (array_items_encode level rest l x []); [assumption | assumption | lia].
  - destruct d as [|[k x] d]; [reflexivity|].
    rewrite iterencode_dict. rewrite need_dict in F. cbn [wf_value] in W.
    apply andb_prop in W as [Wk W].
    cbn [scan_once]. simpl (Ascii.eqb _ _). cbv iota.
    rewrite skip_ws_indent. rewrite skip_ws_head by reflexivity.
    simpl (Ascii.eqb _ _). cbv iota.
    rewrite (object_items_encode level rest d k x []); [ | assumption | assumption | lia].
    cbn [List.app]. now rewrite (dict_update_distinct _ []).
Qed.

Lemma append_nil_r (s : string) : s ++ "" = s.
Proof. induction s as [|c s IH]; cbn; congruence. Qed.

Lemma head_length level v : 1 <= String.length (iterencode level v).
Proof.
  destruct (iterencode_head level v "") as (c & t & E & _).
  rewrite append_nil_r in E. rewrite E. cbn. lia.
Qed.

Lemma items_need_le_length level tail l :
  Forall fits l -> items_need l <= String.length (encode_items level l tail).
Proof.
  induction 1 as [|y l Hy _ IH]; cbn [items_need encode_items String.length]; [lia|].
  rewrite !length_append. specialize (Hy (S level)). lia.
Qed.

Lemma members_need_le_length level tail d :
  Forall (fun kv => fits (snd kv)) d ->
  members_need d <= String.length (encode_members level d tail).
Proof.
  induction 1 as [|[k y] d Hy _ IH];
    cbn [members_need encode_members String.length]; [lia|].
  rewrite !length_append. cbn [String.length]. rewrite !length_append.
  cbn [String.length]. rewrite !length_append.
  specialize (Hy (S level)). cbn [snd] in Hy. lia.
Qed.

Lemma need_le_length (v : value) : fits v.
Proof.
  induction v using value_ind; intros level;
    try (apply (head_length level)).
  - destruct l as [|x l]; [cbn; lia|].
    rewrite <- (append_nil_r (iterencode level (VList (x :: l)))).
    rewrite iterencode_list, need_list. cbn [String.length items_need].
    rewrite !length_append.
    inversion H as [|? ? Hx Hl]; subst.
    pose proof (items_need_le_length level (newline_indent level ++ "]") l Hl).
    specialize (Hx (S level)). cbn [newline_indent String.length]. lia.
  - destruct d as [|[k x] d]; [cbn; lia|].
    rewrite <- (append_nil_r (iterencode level (VDict ((k, x) :: d)))).
    rewrite iterencode_dict, need_dict. cbn [String.length members_need].
    rewrite !length_append. cbn [String.length]. rewrite !length_append.
    cbn [String.length]. rewrite !length_append.
    inversion H as [|? ? Hx Hl]; subst.
    pose proof (members_need_le_length level (newline_indent level ++ "}") d Hl).
    specialize (Hx (S level)). cbn [snd] in Hx. lia.
Qed.

Theorem json_loads_dumps (v : value) :
  wf_value v = true -> json_loads (json_dumps v) = Return v.
Proof.
  intros W. unfold json_loads, json_dumps.
  pose proof (need_le_length v 0) as F.
  assert (E : scan_once (S (2 * String.length (iterencode 0 v)))
                (skip_ws (iterencode 0 v)) = Return (v, "")).
  { rewrite <- (append_nil_r (iterencode 0 v)) at 2.
    rewrite skip_ws_iterencode.
    apply scan_once_iterencode; [exact W | lia | reflexivity]. }
  rewrite E. reflexivity.
Qed.

End CodecFacts.

(** ** The codec: fuel and errors of the decoder *)

Module DecoderFacts.

Local Open Scope string_scope.

Lemma skip_ws_length (s : string) : String.length (skip_ws s) <= String.length s.
Proof.
  induction s as [|c s IH]; cbn [skip_ws]; [reflexivity|].
  destruct (is_ws c); cbn [String.length]; lia.
Qed.

Lemma bind_return {A B : Type} (m : outcome A) (k : A -> outcome B) (b : B) :
  (x <- m ;; k x) = Return b -> exists a, m = Return a /\ k a = Return b.
Proof. destruct m as [a| |]; cbn; intros H; try discriminate. now exists a. Qed.

Lemma scanstring_consumes_aux (n : nat) :
  forall s t rest,
    String.length s <= n -> scanstring s = Return (t, rest) ->
    String.length rest < String.length s.
Proof.
  induction n as [|n IH]; intros s t rest L H.
  - destruct s; [discriminate | cbn in L; lia].
  - destruct s as [|c r]; [discriminate|]. cbn [String.length] in *.
    cbn [scanstring] in H.
    destruct (Ascii.eqb c dquote).
    { injection H as _ <-. lia. }
    destruct (Ascii.eqb c backslash).
    { destruct r as [|e r1]; [discriminate|]. cbn [String.length] in *.
      destruct (Ascii.eqb e "u").
      - destruct r1 as [|h1 [|h2 [|h3 [|h4 r2]]]]; try discriminate.
        cbn [String.length] in *.
        destruct (hex4 h1 h2 h3 h4); [|discriminate].
        destruct (_ <? _)%N; [|discriminate].
        apply bind_return in H as ([t' rest'] & E & H).
        injection H as _ <-. apply IH in E; cbn [snd]; lia.
      - destruct (unescape e); [|discriminate].
        apply bind_return in H as ([t' rest'] & E & H).
        injection H as _ <-. apply IH in E; cbn [snd]; lia. }
    destruct (_ <? _)%N; [discriminate|].
    apply bind_return in H as ([t' rest'] & E & H).
    injection H as _ <-. apply IH in E; cbn [snd]; lia.
Qed.

Lemma scanstring_consumes (s t rest : string) :
  scanstring s = Return (t, rest) -> String.length rest < String.length s.
Proof. apply (scanstring_consumes_aux (String.length s)). reflexivity. Qed.

Lemma scan_digits_length (s : string) :
  String.length (snd (scan_digits s)) <= String.length s.
Proof.
  induction s as [|c s IH]; cbn [scan_digits]; [reflexivity|].
  destruct (digit_of_char c); cbn [snd String.length]; lia.
Qed.

Lemma startswith_drop (s p : string) :
  startswith s p = true ->
  String.length (drop (String.length p) s) + String.length p = String.length s.
Proof.
  revert s. induction p as [|a p IH]; intros s H; cbn [String.length drop].
  - destruct s; cbn; lia.
  - destruct s as [|b s]; [discriminate|]. cbn [startswith] in H.
    apply andb_prop in H as [_ H]. cbn [String.length]. rewrite <- (IH s H). lia.
Qed.

Lemma match_number_consumes (s : string) (v : value) (rest : string) :
  match_number s = Some (Return (v, rest)) ->
  String.length rest < String.length s.
Proof.
  unfold match_number.
  set (neg := match s with String c _ => Ascii.eqb c "-" | EmptyString => false end).
  set (s1 := if neg then match s with String _ r => r | EmptyString => "" end else s).
  assert (L : String.length s1 <= String.length s).
  { unfold s1. destruct neg; [|reflexivity]. destruct s; cbn; lia. }
  destruct s1 as [|c r]; [discriminate|]. cbn [String.length] in L.
  destruct (is_digit c) eqn:Dc; [|discriminate].
  assert (R : String.length
                (snd (if Ascii.eqb c "0" then (D0 Nil, r) else scan_digits (String c r)))
              <= String.length r).
  { destruct (Ascii.eqb c "0"); [reflexivity|].
    cbn [scan_digits]. unfold is_digit in Dc.
    destruct (digit_of_char c); [|discriminate]. apply scan_digits_length. }
  destruct (_ || _); [discriminate|].
  intros H. injection H as _ <-.
  apply (Nat.le_lt_trans _ (String.length r)); [exact R | lia].
Qed.

Lemma scan_constant_consumes (s : string) (v : value) (rest : string) :
  scan_constant s = Return (v, rest) -> String.length rest < String.length s.
Proof.
  unfold scan_constant.
  destruct (startswith s "null") eqn:E1.
  { intros H. injection H as _ <-. apply startswith_drop in E1. cbn in E1. lia. }
  destruct (startswith s "true") eqn:E2.
  { intros H. injection H as _ <-. apply startswith_drop in E2. cbn in E2. lia. }
  destruct (startswith s "false") eqn:E3.
  { intros H. injection H as _ <-. apply startswith_drop in E3. cbn in E3. lia. }
  destruct (match_number s) as [r|] eqn:M.
  - intros ->. now apply match_number_consumes in M.
  - destruct (_ || _); discriminate.
Qed.

Lemma scan_once_consumes (fuel : nat) : consumes fuel.
Proof.
  induction fuel as [|fuel (IH1 & IH2 & IH3)];
    [repeat split; intros; discriminate|].
  repeat split.
  - intros s v rest H. destruct s as [|c r]; [discriminate|].
    cbn [scan_once] in H. cbn [String.length].
    pose proof (skip_ws_length r) as W.
    destruct (Ascii.eqb c dquote).
    { apply bind_return in H as ([t rest'] & E & H). injection H as _ <-.
      apply scanstring_consumes in E. cbn [snd]. lia. }
    destruct (Ascii.eqb c "{").
    { destruct (skip_ws r) as [|c1 r1] eqn:E; [discriminate|].
      cbn [String.length] in W.
      destruct (Ascii.eqb c1 "}").
      - injection H as _ <-. lia.
      - apply IH3 in H. cbn [String.length] in H. lia. }
    destruct (Ascii.eqb c "[").
    { destruct (skip_ws r) as [|c1 r1] eqn:E; [discriminate|].
      cbn [String.length] in W.
      destruct (Ascii.eqb c1 "]").
      - injection H as _ <-. lia.
      - apply IH2 in H. cbn [String.length] in H. lia. }
    apply scan_constant_consumes in H. exact H.
  - intros s acc v rest H. cbn [array_items] in H.
    apply bind_return in H as ([x rest1] & E & H). cbn [fst snd] in H.
    apply IH1 in E. pose proof (skip_ws_length rest1) as W.
    destruct (skip_ws rest1) as [|c r]; [discriminate|]. cbn [String.length] in W.
    destruct (Ascii.eqb c "]").
    { injection H as _ <-. lia. }
    destruct (Ascii.eqb c ","); [|discriminate].
    apply IH2 in H. pose proof (skip_ws_length r). lia.
  - intros s acc v rest H. cbn [object_items] in H.
    destruct s as [|q r]; [discriminate|]. cbn [String.length].
    destruct (Ascii.eqb q dquote); [|discriminate].
    apply bind_return in H as ([k rest1] & E & H). cbn [fst snd] in H.
    apply scanstring_consumes in E. pose proof (skip_ws_length rest1) as W1.
    destruct (skip_ws rest1) as [|c r1]; [discriminate|]. cbn [String.length] in W1.
    destruct (Ascii.eqb c ":"); [|discriminate].
    apply bind_return in H as ([x rest2] & E2 & H). cbn [fst snd] in H.
    apply IH1 in E2. pose proof (skip_ws_length r1) as W2.
    pose proof (skip_ws_length rest2) as W3.
    destruct (skip_ws rest2) as [|c2 r2]; [discriminate|]. cbn [String.length] in W3.
    destruct (Ascii.eqb c2 "}").
    { injection H as _ <-. lia. }
    destruct (Ascii.eqb c2 ","); [|discriminate].
    apply IH3 in H. pose proof (skip_ws_length r2). lia.
Qed.

Lemma scan_once_fuel_independent (fuel : nat) : fuel_independent fuel.
Proof.
  induction fuel as [|fuel (IH1 & IH2 & IH3)];
    [repeat split; intros; lia|].
  destruct (scan_once_consumes fuel) as (C1 & _ & _).
  repeat split.
  - intros s [|fuel'] L F; [lia|]. destruct s as [|c r]; [reflexivity|].
    cbn [scan_once]. cbn [String.length] in L.
    pose proof (skip_ws_length r) as W.
    destruct (Ascii.eqb c dquote); [reflexivity|].
    destruct (Ascii.eqb c "{").
    { destruct (skip_ws r) as [|c1 r1] eqn:E; [reflexivity|].
      destruct (Ascii.eqb c1 "}"); [reflexivity|].
      apply IH3; lia. }
    destruct (Ascii.eqb c "[").
    { destruct (skip_ws r) as [|c1 r1] eqn:E; [reflexivity|].
      destruct (Ascii.eqb c1 "]"); [reflexivity|].
      apply IH2; lia. }
    reflexivity.
  - intros s acc [|fuel'] L F; [lia|]. cbn [array_items].
    rewrite (IH1 s fuel') by lia.
    destruct (scan_once fuel s) as [[x rest1]| |] eqn:E; cbn [bind fst snd];
      try reflexivity.
    apply C1 in E. pose proof (skip_ws_length rest1) as W.
    destruct (skip_ws rest1) as [|c r]; [reflexivity|]. cbn [String.length] in W.
    destruct (Ascii.eqb c "]"); [reflexivity|].
    destruct (Ascii.eqb c ","); [|reflexivity].
    pose proof (skip_ws_length r). apply IH2; lia.
  - intros s acc [|fuel'] L F; [lia|]. cbn [object_items].
    destruct s as [|q r]; [reflexivity|]. cbn [String.length] in L.
    destruct (Ascii.eqb q dquote); [|reflexivity].
    destruct (scanstring r) as [[k rest1]| |] eqn:E; cbn [bind fst snd];
      try reflexivity.
    apply scanstring_consumes in E. pose proof (skip_ws_length rest1) as W1.
    destruct (skip_ws rest1) as [|c r1]; [reflexivity|]. cbn [String.length] in W1.
    destruct (Ascii.eqb c ":"); [|reflexivity].
    pose proof (skip_ws_length r1) as W2.
    rewrite (IH1 (skip_ws r1) fuel') by lia.
    destruct (scan_once fuel (skip_ws r1)) as [[x rest2]| |] eqn:E2;
      cbn [bind fst snd]; try reflexivity.
    apply C1 in E2. pose proof (skip_ws_length rest2) as W3.
    destruct (skip_ws rest2) as [|c2 r2]; [reflexivity|]. cbn [String.length] in W3.
    destruct (Ascii.eqb c2 "}"); [reflexivity|].
    destruct (Ascii.eqb c2 ","); [|reflexivity].
    pose proof (skip_ws_length r2). apply IH3; lia.
Qed.

(** The fuel [json_loads] gives [scan_once] is never the limit: more fuel
    decodes to the same outcome. *)
Theorem json_loads_fuel (s : string) (fuel : nat) :
  2 * String.length s < fuel ->
  (p <- scan_once fuel (skip_ws s) ;;
   match skip_ws (snd p) with
   | EmptyString => Return (fst p)
   | String _ _ => json_error
   end) = json_loads s.
Proof.
  intros L. unfold json_loads.
  destruct (scan_once_fuel_independent (S (2 * String.length s))) as (H & _ & _).
  rewrite (H (skip_ws s) fuel); [reflexivity | | lia].
  pose proof (skip_ws_length s). lia.
Qed.

Lemma bind_decode_errors {A B : Type} (m : outcome A) (k : A -> outcome B) :
  decode_errors_only m -> (forall a, decode_errors_only (k a)) ->
  decode_errors_only (x <- m ;; k x).
Proof.
  intros Hm Hk e. destruct m as [a| e' |]; cbn [bind].
  - apply Hk.
  - intros H. injection H as <-. now apply Hm.
  - discriminate.
Qed.

Lemma return_decode_errors {A : Type} (a : A) : decode_errors_only (Return a).
Proof. intros e H. discriminate H. Qed.

Lemma unmodelled_decode_errors {A : Type} : decode_errors_only (@Unmodelled A).
Proof. intros e H. discriminate H. Qed.

Lemma json_error_decode_errors {A : Type} : decode_errors_only (@json_error A).
Proof. intros e H. injection H as <-. reflexivity. Qed.

Create HintDb decode.

#[local] Hint Resolve return_decode_errors unmodelled_decode_errors
  json_error_decode_errors : decode.

Lemma scanstring_errors_aux (n : nat) :
  forall s, String.length s <= n -> decode_errors_only (scanstring s).
Proof.
  induction n as [|n IH]; intros s L.
  - destruct s; [cbn; auto with decode | cbn in L; lia].
  - destruct s as [|c r]; [cbn; auto with decode|].
    cbn [String.length] in L. cbn [scanstring].
    destruct (Ascii.eqb c dquote); [auto with decode|].
    destruct (Ascii.eqb c backslash).
    { destruct r as [|e r1]; [auto with decode|]. cbn [String.length] in L.
      destruct (Ascii.eqb e "u").
      - destruct r1 as [|h1 [|h2 [|h3 [|h4 r2]]]]; auto with decode.
        cbn [String.length] in L.
        destruct (hex4 h1 h2 h3 h4); [|auto with decode].
        destruct (_ <? _)%N; [|auto with decode].
        apply bind_decode_errors; [apply IH; lia | auto with decode].
      - destruct (unescape e); [|auto with decode].
        apply bind_decode_errors; [apply IH; lia | auto with decode]. }
    destruct (_ <? _)%N; [auto with decode|].
    apply bind_decode_errors; [apply IH; lia | auto with decode].
Qed.

Lemma scanstring_errors (s : string) : decode_errors_only (scanstring s).
Proof. apply (scanstring_errors_aux (String.length s)). reflexivity. Qed.

Lemma match_number_errors (s : string) (r : outcome (value * string)) :
  match_number s = Some r -> decode_errors_only r.
Proof.
  unfold match_number. intros M.
  repeat match type of M with
         | context [match ?x with _ => _ end] => destruct x; try discriminate M
         end;
    injection M as <-; auto with decode.
Qed.

Lemma scan_constant_errors (s : string) : decode_errors_only (scan_constant s).
Proof.
  unfold scan_constant.
  repeat match goal with
         | |- context [if ?b then _ else _] => destruct b; auto with decode
         end;
    destruct (match_number s) as [r|] eqn:M;
    eauto using match_number_errors with decode.
Qed.

Lemma scan_once_errors (fuel : nat) :
  (forall s, decode_errors_only (scan_once fuel s)) /\
  (forall s acc, decode_errors_only (array_items fuel s acc)) /\
  (forall s acc, decode_errors_only (object_items fuel s acc)).
Proof.
  induction fuel as [|fuel (IH1 & IH2 & IH3)];
    [repeat split; intros; cbn; auto with decode|].
  repeat split.
  - intros s. destruct s as [|c r]; [cbn; auto with decode|].
    cbn [scan_once].
    destruct (Ascii.eqb c dquote).
    { apply bind_decode_errors; [apply scanstring_errors | auto with decode]. }
    destruct (Ascii.eqb c "{").
    { destruct (skip_ws r) as [|c1 r1]; [auto with decode|].
      destruct (Ascii.eqb c1 "}"); [auto with decode | apply IH3]. }
    destruct (Ascii.eqb c "[").
    { destruct (skip_ws r) as [|c1 r1]; [auto with decode|].
      destruct (Ascii.eqb c1 "]"); [auto with decode | apply IH2]. }
    apply scan_constant_errors.
  - intros s acc. cbn [array_items].
    apply bind_decode_errors; [apply IH1|]. intros [x rest1]. cbn [fst snd].
    destruct (skip_ws rest1) as [|c r]; [auto with decode|].
    destruct (Ascii.eqb c "]"); [auto with decode|].
    destruct (Ascii.eqb c ","); [apply IH2 | auto with decode].
  - intros s acc. cbn [object_items].
    destruct s as [|q r]; [auto with decode|].
    destruct (Ascii.eqb q dquote); [|auto with decode].
    apply bind_decode_errors; [apply scanstring_errors|]. intros [k rest1].
    cbn [fst snd].
    destruct (skip_ws rest1) as [|c r1]; [auto with decode|].
    destruct (Ascii.eqb c ":"); [|auto with decode].
    apply bind_decode_errors; [apply IH1|]. intros [x rest2]. cbn [fst snd].
    destruct (skip_ws rest2) as [|c2 r2]; [auto with decode|].
    destruct (Ascii.eqb c2 "}"); [auto with decode|].
    destruct (Ascii.eqb c2 ","); [apply IH3 | auto with decode].
Qed.

Lemma json_loads_errors (s : string) : decode_errors_only (json_loads s).
Proof.
  unfold json_loads. apply bind_decode_errors; [apply scan_once_errors|].
  intros [v rest]. cbn [fst snd]. destruct (skip_ws rest); auto with decode.
Qed.

(** [read_from_file] raises nothing: the two exceptions that opening and
    decoding can raise are the two it catches. *)
Theorem read_from_file_raises_nothing (self : BookCollection) (w : World)
  (e : exn) : read_from_file self w <> Raise e.
Proof.
  unfold read_from_file, json_load, read_text.
  destruct (lookup (files w) (storage_file self)) as [text|]; cbn [bind];
    [|discriminate].
  pose proof (json_loads_errors text) as H.
  destruct (json_loads text) as [v| e' |]; try discriminate.
  rewrite (H e' eq_refl). discriminate.
Qed.

End DecoderFacts.

(** ** Dicts *)

Module DictFacts.

Lemma dict_get_set (d : dict) (k k' : string) (v : value) :
  dict_get (dict_set d k v) k' =
  if String.eqb k k' then Some v else dict_get d k'.
Proof.
  induction d as [|[k0 v0] d IH]; cbn [dict_set dict_get].
  - destruct (String.eqb_spec k k'); reflexivity.
  - destruct (String.eqb_spec k0 k) as [->|N]; cbn [dict_get].
    + destruct (String.eqb_spec k k'); reflexivity.
    + rewrite IH. destruct (String.eqb_spec k0 k') as [->|N'].
      * destruct (String.eqb_spec k k'); [congruence | reflexivity].
      * reflexivity.
Qed.

Lemma dict_get_update_other (other d : dict) (k : string) :
  ~ In k (map fst other) ->
  dict_get (dict_update d other) k = dict_get d k.
Proof.
  unfold dict_update. revert d.
  induction other as [|[k0 v0] other IH]; intros d N; cbn [fold_left fst snd];
    [reflexivity|].
  cbn [map fst In] in N. rewrite IH by tauto. rewrite dict_get_set.
  destruct (String.eqb_spec k0 k); [tauto | reflexivity].
Qed.

Lemma distinct_keys_cons (k : string) (keys : list string) :
  distinct_keys (k :: keys) = true -> ~ In k keys /\ distinct_keys keys = true.
Proof.
  cbn [distinct_keys]. intros H. apply andb_prop in H as [H1 H2].
  split; [|exact H2]. intros I. apply negb_true_iff in H1.
  assert (E : existsb (String.eqb k) keys = true).
  { apply existsb_exists. exists k. split; [exact I | apply String.eqb_refl]. }
  congruence.
Qed.

Lemma dict_get_update_supplied (other d : dict) (k : string) (v : value) :
  distinct_keys (map fst other) = true -> In (k, v) other ->
  dict_get (dict_update d other) k = Some v.
Proof.
  revert d.
  induction other as [|[k0 v0] other IH]; intros d D I; [destruct I|].
  cbn [map fst] in D. apply distinct_keys_cons in D as [N D].
  change (dict_update d ((k0, v0) :: other))
    with (dict_update (dict_set d k0 v0) other).
  destruct I as [E|I].
  - injection E as -> ->. rewrite dict_get_update_other by exact N.
    rewrite dict_get_set, String.eqb_refl. reflexivity.
  - apply IH; assumption.
Qed.

End DictFacts.

(** ** The file system *)

Module FsFacts.

Lemma lookup_store (fs : list (string * string)) (path text : string) :
  lookup (store fs path text) path = Some text.
Proof.
  induction fs as [|[p t] fs IH]; cbn [store lookup].
  - now rewrite String.eqb_refl.
  - destruct (String.eqb_spec p path) as [->|N]; cbn [lookup].
    + now rewrite String.eqb_refl.
    + destruct (String.eqb_spec p path); [contradiction | exact IH].
Qed.

End FsFacts.

(** ** The loops of the class *)

Module LoopFacts.

Lemma set_books_list_same (self : BookCollection) (v : value) :
  books_list self = v -> set_books_list self v = self.
Proof. destruct self; cbn; intros ->; reflexivity. Qed.

Lemma title_is_titled (book : value) (t : string) :
  has_str "title" book = true ->
  title_is book (VStr t) = Return (same_title t book).
Proof.
  unfold has_str, same_title, field_str, title_is, getitem.
  destruct book as [| | | | |d]; try discriminate.
  destruct (dict_get d "title") as [[| | |s| |]|]; try discriminate.
  reflexivity.
Qed.

Lemma without_title_filter (books : list value) (t : string) :
  titled books ->
  without_title books (VStr t) =
  Return (filter (fun book => negb (same_title t book)) books).
Proof.
  induction 1 as [|book books Hb _ IH]; [reflexivity|].
  cbn [without_title filter]. rewrite title_is_titled, IH by exact Hb.
  cbn [bind]. destruct (same_title t book); reflexivity.
Qed.

Lemma filter_all {A : Type} (f : A -> bool) (l : list A) :
  Forall (fun x => f x = true) l -> filter f l = l.
Proof.
  induction 1 as [|x l Hx _ IH]; [reflexivity|].
  cbn [filter]. now rewrite Hx, IH.
Qed.

Lemma update_first_absent (books : list value) (t : string) (new_data : dict) :
  titled books ->
  Forall (fun book => same_title t book = false) books ->
  update_first books (VStr t) new_data = Return None.
Proof.
  induction 1 as [|book books Hb _ IH]; intros N; [reflexivity|].
  inversion N as [|? ? Nb Nbooks]; subst.
  cbn [update_first]. rewrite title_is_titled by exact Hb.
  cbn [bind]. rewrite Nb, IH by exact Nbooks. reflexivity.
Qed.

Lemma update_first_present (pre post : list value) (d : dict) (t : string)
  (new_data : dict) :
  titled pre ->
  Forall (fun book => same_title t book = false) pre ->
  same_title t (VDict d) = true ->
  update_first (pre ++ VDict d :: post) (VStr t) new_data =
  Return (Some (pre ++ VDict (dict_update d new_data) :: post)).
Proof.
  intros T N M. induction T as [|book pre Hb _ IH].
  - cbn [List.app update_first]. rewrite title_is_titled.
    + cbn [bind]. rewrite M. reflexivity.
    + unfold has_str. unfold same_title in M.
      destruct (field_str (VDict d) "title"); [reflexivity | discriminate].
  - inversion N as [|? ? Nb Npre]; subst.
    cbn [List.app update_first]. rewrite title_is_titled by exact Hb.
    cbn [bind]. rewrite Nb, IH by exact Npre. reflexivity.
Qed.

(** The first record of a title splits a collection that has one. *)
Lemma first_match (books : list value) (t : string) :
  titled books -> existsb (same_title t) books = true ->
  exists pre d post,
    books = pre ++ VDict d :: post /\ titled pre /\
    Forall (fun book => same_title t book = false) pre /\
    same_title t (VDict d) = true.
Proof.
  induction 1 as [|book books Hb Hbooks IH]; [discriminate|].
  cbn [existsb]. destruct (same_title t book) eqn:M.
  - intros _. destruct book as [| | | | |d];
      try (unfold same_title, field_str in M; discriminate).
    exists [], d, books. repeat split; [constructor | constructor | exact M].
  - cbn [orb]. intros E. destruct (IH E) as (pre & d & post & -> & T & N & M').
    exists (book :: pre), d, post.
    repeat split; [constructor; assumption | constructor; assumption | exact M'].
Qed.

(** The scenario of the specification: a missing file, two adds of one
    title in two cases, a delete of both, an update of a missing title. *)
Example scenario :
  init no_file = Return (collection_of []) /\
  (r1 <- add_book (collection_of []) (VStr "Dune") (VStr "Herbert") (VInt 1965)
           (VStr "Science Fiction") (VBool false) "2024-01-15" no_file ;;
   r2 <- add_book (fst r1) (VStr "DUNE") (VStr "Other") (VInt 1970)
           (VStr "Fiction") (VBool true) "2024-01-16" (snd r1) ;;
   r3 <- delete_book (fst r2) (VStr "dune") (snd r2) ;;
   r4 <- update_book (fst r3) (VStr "Missing") [("read", VBool true)] (snd r3) ;;
   Return (books_list (fst r1), books_list (fst r2), books_list (fst r3),
           fst (fst r4), books_list (snd (fst r4)),
           map snd (writes (snd r4)))) =
  Return (VList [dune], VList [dune; dune_upper], VList [], false, VList [],
          [json_dumps (VList [dune]); json_dumps (VList [dune; dune_upper]);
           json_dumps (VList [])]).
Proof. split; reflexivity. Qed.

End LoopFacts.

Import DictFacts FsFacts LoopFacts.

(** * The claims *)

(** ** C1: validation on add *)

(** C1, as stated, fails: [add_book] called with an empty title and an
    empty author raises nothing; it appends the record to the collection and
    saves it. *)
Lemma add_book_stores_empty_title :
  add_book (collection_of []) (VStr "") (VStr "") (VInt 2000) (VStr "Fiction")
    (VBool false) "2024-01-15" no_file =
  Return (collection_of [record "" "" 2000 "Fiction" false "2024-01-15"],
          save_to_file
            (collection_of [record "" "" 2000 "Fiction" false "2024-01-15"])
            no_file) /\
  writes (save_to_file
            (collection_of [record "" "" 2000 "Fiction" false "2024-01-15"])
            no_file) <> writes no_file.
Proof. split; [reflexivity | discriminate]. Qed.

(** C1, amended: when the form "Add Book" is submitted with an empty title
    or an empty author, the handler shows an error message and does not call
    [add_book]: the collection and the file system, its log of saves
    included, are what they were. *)
Theorem add_book_form_guard (self : BookCollection) (title author : string)
  (year : Z) (genre : string) (read : bool) (today : string) (w : World) :
  title = "" \/ author = "" ->
  add_book_form self title author year genre read today w =
  Return (ErrorMessage, self, w).
Proof.
  unfold add_book_form. intros [-> | ->]; cbn [truthy String.eqb negb andb];
    [reflexivity|].
  now rewrite andb_false_r.
Qed.

Lemma add_book_form_guard_witness :
  add_book_form (collection_of [dune]) "" "Herbert" 1965 "Science Fiction" false
    "2024-01-15" no_file =
  Return (ErrorMessage, collection_of [dune], no_file).
Proof. apply add_book_form_guard. left. reflexivity. Defined.

(** ** C2: delete of an absent title *)

(** C2, as stated, fails: deleting a title no record has still calls
    [save_to_file], which here creates the storage file. *)
Lemma delete_book_absent_title_saves :
  existsb (same_title "Foundation") [dune] = false /\
  delete_book (collection_of [dune]) (VStr "Foundation") no_file =
  Return (collection_of [dune],
          {| files := [("books.json", json_dumps (VList [dune]))];
             writes := [("books.json", json_dumps (VList [dune]))] |}) /\
  files no_file = [] /\ writes no_file = [].
Proof. repeat split. Qed.

(** C2, amended: when no record has the title, [delete_book] leaves the
    collection as it is and makes one save all the same, which writes the
    encoding of that unchanged collection to the storage file. *)
Theorem delete_book_absent_title (self : BookCollection) (books : list value)
  (t : string) (w : World) :
  books_list self = VList books -> titled books ->
  Forall (fun book => same_title t book = false) books ->
  delete_book self (VStr t) w = Return (self, save_to_file self w).
Proof.
  intros E T N. unfold delete_book. rewrite E. cbn [iter bind].
  rewrite without_title_filter by exact T. cbn [bind].
  rewrite filter_all.
  - rewrite set_books_list_same by exact E. reflexivity.
  - eapply Forall_impl; [|exact N]. cbn. intros book ->. reflexivity.
Qed.

Lemma delete_book_absent_title_witness :
  delete_book (collection_of [dune; dune_upper]) (VStr "Foundation") no_file =
  Return (collection_of [dune; dune_upper],
          save_to_file (collection_of [dune; dune_upper]) no_file).
Proof.
  apply (delete_book_absent_title _ [dune; dune_upper]);
    [reflexivity | repeat constructor | repeat constructor].
Defined.

(** ** C5: what delete removes *)

(** C5: on a collection of titled records, [delete_book] keeps exactly the
    records whose title differs from the argument when case is ignored, each
    unchanged and in the original order, and saves the result. *)
Theorem delete_book_removes_matches (self : BookCollection)
  (books : list value) (t : string) (w : World) :
  books_list self = VList books -> titled books ->
  let kept := filter (fun book => negb (same_title t book)) books in
  delete_book self (VStr t) w =
  Return (set_books_list self (VList kept),
          save_to_file (set_books_list self (VList kept)) w).
Proof.
  intros E T kept. unfold delete_book. rewrite E. cbn [iter bind].
  rewrite without_title_filter by exact T. reflexivity.
Qed.

Lemma delete_book_removes_matches_witness :
  delete_book (collection_of [dune; foundation; dune_upper]) (VStr "dune") no_file =
  Return (collection_of [foundation],
          save_to_file (collection_of [foundation]) no_file).
Proof.
  assert (T : titled [dune; foundation; dune_upper]) by repeat constructor.
  exact (delete_book_removes_matches
           (collection_of [dune; foundation; dune_upper])
           [dune; foundation; dune_upper] "dune" no_file eq_refl T).
Defined.

(** ** C6: update of an absent title *)

(** C6: when no record has the title, [update_book] returns [False], and the
    collection and the file system, its log of saves included, are what they
    were. *)
Theorem update_book_absent_title (self : BookCollection) (books : list value)
  (t : string) (new_data : dict) (w : World) :
  books_list self = VList books -> titled books ->
  Forall (fun book => same_title t book = false) books ->
  update_book self (VStr t) new_data w = Return (false, self, w).
Proof.
  intros E T N. unfold update_book. rewrite E. cbn [iter bind].
  rewrite update_first_absent by assumption. reflexivity.
Qed.

Lemma update_book_absent_title_witness :
  update_book (collection_of [dune; foundation]) (VStr "Missing")
    [("read", VBool true)] no_file =
  Return (false, collection_of [dune; foundation], no_file).
Proof.
  apply (update_book_absent_title _ [dune; foundation]);
    [reflexivity | repeat constructor | repeat constructor].
Defined.

(** ** C3: update of a present title *)

(** C3, as stated, fails: a [date_added] among the supplied fields
    overwrites the record's. *)
Lemma update_book_overwrites_date_added :
  update_book (collection_of [dune]) (VStr "dune")
    [("date_added", VStr "1999-12-31")] no_file =
  Return (true,
          collection_of
            [record "Dune" "Herbert" 1965 "Science Fiction" false "1999-12-31"],
          save_to_file
            (collection_of
               [record "Dune" "Herbert" 1965 "Science Fiction" false "1999-12-31"])
            no_file) /\
  field_str dune "date_added" = Some "2024-01-15".
Proof. split; reflexivity. Qed.

(** C3, amended: when some record has the title, [update_book] merges the
    supplied fields into the first such record and into no other: the
    records before and after it are unchanged, the fields not supplied keep
    their values, every supplied field takes the supplied value, [date_added]
    like any other, the whole collection is saved, and the result is
    [True]. *)
Theorem update_book_first_match (self : BookCollection) (books : list value)
  (t : string) (new_data : dict) (w : World) :
  books_list self = VList books -> titled books ->
  existsb (same_title t) books = true ->
  distinct_keys (map fst new_data) = true ->
  exists pre d post,
    books = pre ++ VDict d :: post /\
    Forall (fun book => same_title t book = false) pre /\
    same_title t (VDict d) = true /\
    (let self' :=
       set_books_list self (VList (pre ++ VDict (dict_update d new_data) :: post)) in
     update_book self (VStr t) new_data w =
     Return (true, self', save_to_file self' w)) /\
    (forall k, ~ In k (map fst new_data) ->
               dict_get (dict_update d new_data) k = dict_get d k) /\
    (forall k v, In (k, v) new_data ->
                 dict_get (dict_update d new_data) k = Some v).
Proof.
  intros E T M D.
  destruct (first_match books t T M) as (pre & d & post & -> & Tpre & N & Md).
  exists pre, d, post. repeat split; try assumption.
  - unfold update_book. rewrite E. cbn [iter bind].
    rewrite update_first_present by assumption. reflexivity.
  - intros k. apply dict_get_update_other.
  - intros k v. apply dict_get_update_supplied. exact D.
Qed.

Lemma update_book_first_match_witness :
  exists pre d post,
    [foundation; dune; dune_upper] = pre ++ VDict d :: post /\
    Forall (fun book => same_title "DUNE" book = false) pre /\
    same_title "DUNE" (VDict d) = true /\
    (let self' :=
       set_books_list (collection_of [foundation; dune; dune_upper])
         (VList (pre ++ VDict (dict_update d [("read", VBool true)]) :: post)) in
     update_book (collection_of [foundation; dune; dune_upper]) (VStr "DUNE")
       [("read", VBool true)] no_file =
     Return (true, self', save_to_file self' no_file)) /\
    (forall k, ~ In k (map fst [("read", VBool true)]) ->
               dict_get (dict_update d [("read", VBool true)]) k = dict_get d k) /\
    (forall k v, In (k, v) [("read", VBool true)] ->
                 dict_get (dict_update d [("read", VBool true)]) k = Some v).
Proof.
  apply (update_book_first_match _ [foundation; dune; dune_upper]);
    [reflexivity | repeat constructor | reflexivity | reflexivity].
Defined.

(** ** C10: no schema on update *)

Module MergeFacts.

Lemma has_key_set (d : dict) (k k' : string) (v : value) :
  has_key (dict_set d k v) k' = String.eqb k k' || has_key d k'.
Proof.
  unfold has_key. rewrite dict_get_set.
  destruct (String.eqb k k'); [reflexivity|].
  destruct (dict_get d k'); reflexivity.
Qed.

(** The keys after an assignment: those before it, and the assigned key
    after them when it is new. *)
Lemma dict_set_key_list (d : dict) (k : string) (v : value) :
  map fst (dict_set d k v) =
  map fst d ++ (if has_key d k then [] else [k]).
Proof.
  unfold has_key. induction d as [|[k0 v0] d IH]; [reflexivity|].
  cbn [dict_set dict_get map fst]. destruct (String.eqb k0 k); cbn [map fst].
  - now rewrite List.app_nil_r.
  - cbn [List.app]. now rewrite IH.
Qed.

(** The keys after [update]: those before it in their order, then the
    keys of the other dict that are new, in the order of that dict. *)
Lemma dict_update_key_list (other d : dict) :
  distinct_keys (map fst other) = true ->
  map fst (dict_update d other) =
  map fst d ++ filter (fun k => negb (has_key d k)) (map fst other).
Proof.
  revert d. induction other as [|[k v] other IH]; intros d D.
  - cbn. now rewrite List.app_nil_r.
  - cbn [map fst] in D. apply distinct_keys_cons in D as [N D].
    change (dict_update d ((k, v) :: other))
      with (dict_update (dict_set d k v) other).
    rewrite IH by exact D. rewrite dict_set_key_list.
    cbn [map fst filter]. rewrite <- List.app_assoc. f_equal.
    assert (F : filter (fun k' => negb (has_key (dict_set d k v) k'))
                  (map fst other) =
                filter (fun k' => negb (has_key d k')) (map fst other)).
    { apply filter_ext_in. intros k' I. rewrite has_key_set.
      destruct (String.eqb_spec k k') as [->|_]; [contradiction | reflexivity]. }
    rewrite F. destruct (has_key d k); reflexivity.
Qed.

End MergeFacts.

Import MergeFacts.

(** C10: when some record has the title, [update_book] copies every
    key-value pair of the supplied mapping into the first such record,
    whatever the key: the record after the update holds each supplied pair,
    holds under every other key what it held before, and has the keys it
    had, in their order, followed by the supplied keys that are new to it,
    the six fields of the store format or not, in the order of the mapping.
    The other records are unchanged, the collection is saved and the result
    is [True]. *)
Theorem update_book_copies_every_pair (self : BookCollection)
  (books : list value) (t : string) (new_data : dict) (w : World) :
  books_list self = VList books -> titled books ->
  existsb (same_title t) books = true ->
  distinct_keys (map fst new_data) = true ->
  exists pre d d' post,
    books = pre ++ VDict d :: post /\
    Forall (fun book => same_title t book = false) pre /\
    same_title t (VDict d) = true /\
    (let self' := set_books_list self (VList (pre ++ VDict d' :: post)) in
     update_book self (VStr t) new_data w =
     Return (true, self', save_to_file self' w)) /\
    (forall k v, In (k, v) new_data -> dict_get d' k = Some v) /\
    (forall k, ~ In k (map fst new_data) -> dict_get d' k = dict_get d k) /\
    map fst d' =
    map fst d ++ filter (fun k => negb (has_key d k)) (map fst new_data).
Proof.
  intros E T M D.
  destruct (first_match books t T M) as (pre & d & post & -> & Tpre & N & Md).
  exists pre, d, (dict_update d new_data), post.
  repeat split; try assumption.
  - unfold update_book. rewrite E. cbn [iter bind].
    rewrite update_first_present by assumption. reflexivity.
  - intros k v. apply dict_get_update_supplied. exact D.
  - intros k. apply dict_get_update_other.
  - apply dict_update_key_list. exact D.
Qed.

Lemma update_book_copies_every_pair_witness :
  exists pre d d' post,
    [dune; foundation] = pre ++ VDict d :: post /\
    Forall (fun book => same_title "foundation" book = false) pre /\
    same_title "foundation" (VDict d) = true /\
    (let self' :=
       set_books_list (collection_of [dune; foundation])
         (VList (pre ++ VDict d' :: post)) in
     update_book (collection_of [dune; foundation]) (VStr "foundation")
       [("rating", VInt 5); ("read", VBool false); ("shelf", VStr "A")] no_file =
     Return (true, self', save_to_file self' no_file)) /\
    (forall k v,
       In (k, v) [("rating", VInt 5); ("read", VBool false); ("shelf", VStr "A")] ->
       dict_get d' k = Some v) /\
    (forall k,
       ~ In k (map fst [("rating", VInt 5); ("read", VBool false);
                        ("shelf", VStr "A")]) ->
       dict_get d' k = dict_get d k) /\
    map fst d' =
    map fst d ++
    filter (fun k => negb (has_key d k))
      (map fst [("rating", VInt 5); ("read", VBool false); ("shelf", VStr "A")]).
Proof.
  apply (update_book_copies_every_pair _ [dune; foundation]);
    [reflexivity | repeat constructor | reflexivity | reflexivity].
Defined.

(** The record of the witness after the update: the six fields in place,
    [read] replaced, and the two keys outside the store format after
    them. *)
Example update_book_adds_fields :
  update_book (collection_of [dune; foundation]) (VStr "foundation")
    [("rating", VInt 5); ("read", VBool false); ("shelf", VStr "A")] no_file =
  Return (true,
          collection_of
            [dune;
             VDict [("title", VStr "Foundation"); ("author", VStr "Asimov");
                    ("year", VInt 1951); ("genre", VStr "Science Fiction");
                    ("read", VBool false); ("date_added", VStr "2024-01-17");
                    ("rating", VInt 5); ("shelf", VStr "A")]],
          save_to_file
            (collection_of
               [dune;
                VDict [("title", VStr "Foundation"); ("author", VStr "Asimov");
                       ("year", VInt 1951); ("genre", VStr "Science Fiction");
                       ("read", VBool false); ("date_added", VStr "2024-01-17");
                       ("rating", VInt 5); ("shelf", VStr "A")]])
            no_file).
Proof. reflexivity. Qed.

(** ** C7: reading statistics *)

Module StatsFacts.

Lemma count_read_flags (books : list value) :
  Forall (fun book => read_flag book <> None) books ->
  count_read books = Return (Z.of_nat (List.length (filter is_read books))).
Proof.
  induction 1 as [|book books Hb _ IH]; [reflexivity|].
  cbn [count_read filter]. rewrite IH. unfold is_read.
  unfold read_flag in *. destruct book as [| | | | |d]; try congruence.
  unfold getitem. destruct (dict_get d "read") as [[|b| | | |]|]; try congruence.
  cbn [bind truthy]. destruct b; [|reflexivity].
  cbn [List.length]. now rewrite Nat2Z.inj_succ, Z.add_1_l.
Qed.

Lemma filter_length_le {A : Type} (f : A -> bool) (l : list A) :
  List.length (filter f l) <= List.length l.
Proof.
  induction l as [|x l IH]; [reflexivity|].
  cbn [filter]. destruct (f x); cbn [List.length]; lia.
Qed.

Lemma int_truediv_exact (a b : Z) :
  (0 <= a <= b)%Z -> (0 < b <= 2 ^ 53)%Z ->
  int_truediv a b =
  Return (SFdiv prec emax (float_of_int a) (float_of_int b)).
Proof.
  intros Ha Hb. unfold int_truediv, exactly_convertible.
  destruct (Z.eqb_spec b 0) as [->|_]; [lia|].
  assert (Ea : (Z.abs a <=? 2 ^ 53)%Z = true) by (apply Z.leb_le; lia).
  assert (Eb : (Z.abs b <=? 2 ^ 53)%Z = true) by (apply Z.leb_le; lia).
  now rewrite Ea, Eb.
Qed.

Lemma float_mul_int_100 (x : spec_float) :
  float_mul_int x 100 = Return (SFmul prec emax x (float_of_int 100)).
Proof.
  unfold float_mul_int. change (exactly_convertible 100) with true. reflexivity.
Qed.

End StatsFacts.

Import StatsFacts.

(** C7: on a collection of records that each carry a [read] flag,
    [get_reading_stats] returns the number of records, the number of records
    whose flag is [True], and the rate: the float [completed / total * 100]
    when there is a record, and the int [0] when there is none.  It returns
    in both cases; no division by zero is raised. *)
Theorem get_reading_stats_spec (self : BookCollection) (books : list value) :
  books_list self = VList books ->
  Forall (fun book => read_flag book <> None) books ->
  (Z.of_nat (List.length books) <= 2 ^ 53)%Z ->
  let total := Z.of_nat (List.length books) in
  let completed := Z.of_nat (List.length (filter is_read books)) in
  get_reading_stats self =
  Return (total, completed,
          if (0 <? total)%Z
          then NFloat (SFmul prec emax
                         (SFdiv prec emax (float_of_int completed)
                            (float_of_int total))
                         (float_of_int 100))
          else NInt 0).
Proof.
  intros E R B total completed. unfold get_reading_stats.
  rewrite E. cbn [len iter bind]. rewrite count_read_flags by exact R.
  cbn [bind]. fold total completed.
  destruct (Z.ltb_spec 0 total) as [P|_]; [|reflexivity].
  pose proof (filter_length_le is_read books) as L.
  rewrite int_truediv_exact by (unfold total, completed in *; lia).
  cbn [bind]. rewrite float_mul_int_100. reflexivity.
Qed.

Lemma get_reading_stats_spec_witness :
  get_reading_stats (collection_of [dune; foundation; dune]) =
  Return (3%Z, 1%Z, NFloat (S754_finite false 4691249611844266 (-47))) /\
  get_reading_stats (collection_of []) = Return (0%Z, 0%Z, NInt 0).
Proof.
  split.
  - assert (R : Forall (fun book => read_flag book <> None) [dune; foundation; dune])
      by (repeat constructor; discriminate).
    assert (B : (Z.of_nat (List.length [dune; foundation; dune]) <= 2 ^ 53)%Z)
      by (vm_compute; discriminate).
    exact (get_reading_stats_spec (collection_of [dune; foundation; dune])
             [dune; foundation; dune] eq_refl R B).
  - assert (B : (Z.of_nat (@List.length value []) <= 2 ^ 53)%Z)
      by (vm_compute; discriminate).
    exact (get_reading_stats_spec (collection_of []) [] eq_refl (Forall_nil _) B).
Defined.

(** ** C8: save, then load *)

Module RecordFacts.

Lemma field_ok_wf (kv : string * value) :
  field_ok kv = true -> wf_value (snd kv) = true.
Proof.
  destruct kv as [k v]. unfold field_ok. cbn [snd].
  repeat match goal with
         | |- context [if String.eqb k ?f then _ else _] => destruct (String.eqb k f)
         end;
    destruct v; intros H; try discriminate H; reflexivity.
Qed.

Lemma well_formed_record_wf (book : value) :
  well_formed_record book = true -> wf_value book = true.
Proof.
  destruct book as [| | | | |d]; try discriminate.
  cbn [well_formed_record wf_value]. intros H.
  apply andb_prop in H as [H _]. apply andb_prop in H as [D F].
  rewrite D. cbn [andb]. apply forallb_forall. intros kv I.
  apply field_ok_wf. rewrite forallb_forall in F. now apply F.
Qed.

Lemma well_formed_collection_wf (books : list value) :
  Forall (fun book => well_formed_record book = true) books ->
  wf_value (VList books) = true.
Proof.
  intros H. cbn [wf_value]. apply forallb_forall. intros book I.
  apply well_formed_record_wf. rewrite Forall_forall in H. now apply H.
Qed.

End RecordFacts.

Import RecordFacts.

(** C8: a collection of well-formed records that is saved and then loaded,
    by the same or another [BookCollection] on the same storage file, comes
    back as the same sequence of records. *)
Theorem save_then_load (self other : BookCollection) (books : list value)
  (w : World) :
  books_list self = VList books ->
  Forall (fun book => well_formed_record book = true) books ->
  storage_file other = storage_file self ->
  read_from_file other (save_to_file self w) =
  Return (set_books_list other (VList books)).
Proof.
  intros E F S. unfold read_from_file, json_load, read_text, save_to_file, write_text.
  cbn [files]. rewrite S, lookup_store. cbn [bind].
  rewrite E, CodecFacts.json_loads_dumps by (apply well_formed_collection_wf, F).
  reflexivity.
Qed.

Lemma save_then_load_witness :
  read_from_file (collection_of []) (save_to_file (collection_of [dune; dune_upper]) no_file) =
  Return (collection_of [dune; dune_upper]).
Proof.
  assert (F : Forall (fun book => well_formed_record book = true) [dune; dune_upper])
    by (repeat constructor).
  exact (save_then_load (collection_of [dune; dune_upper]) (collection_of [])
           [dune; dune_upper] no_file eq_refl F eq_refl).
Defined.

(** ** C4: load of an absent or malformed file *)

(** C4, as stated, fails: a file whose text is JSON but no sequence of
    records is loaded as it is, here a list of two ints and [None]. *)
Lemma read_from_file_keeps_other_json :
  init (file_with "[1, 2]") =
  Return {| books_list := VList [VInt 1; VInt 2]; storage_file := "books.json" |} /\
  init (file_with "null") =
  Return {| books_list := VNone; storage_file := "books.json" |}.
Proof. split; reflexivity. Qed.

(** C4, amended: when the storage file is absent, or its text is not JSON
    ([json.load] raises [JSONDecodeError]), [read_from_file] returns with
    an empty list as the collection; it raises nothing. *)
Theorem read_from_file_recovers (self : BookCollection) (w : World) :
  lookup (files w) (storage_file self) = None \/
  (exists text, lookup (files w) (storage_file self) = Some text /\
                json_loads text = Raise JSONDecodeError) ->
  read_from_file self w = Return (set_books_list self (VList [])).
Proof.
  unfold read_from_file, json_load, read_text.
  intros [-> | (text & -> & E)]; cbn [bind]; [reflexivity|].
  now rewrite E.
Qed.

Lemma read_from_file_recovers_witness :
  init no_file = Return (collection_of []) /\
  init (file_with "[1, 2") = Return (collection_of []) /\
  init (file_with "") = Return (collection_of []).
Proof.
  split; [|split]; apply read_from_file_recovers.
  - left. reflexivity.
  - right. exists "[1, 2". split; reflexivity.
  - right. exists "". split; reflexivity.
Defined.

(** ** C9: text search *)

Module SearchFacts.

Local Open Scope string_scope.

Lemma startswith_iff (s p : string) :
  startswith s p = true <-> exists post, s = p ++ post.
Proof.
  revert s. induction p as [|a p IH]; intros s; cbn [startswith String.append].
  - split; [exists s; reflexivity | reflexivity].
  - destruct s as [|b s].
    + split; [discriminate | intros [post E]; discriminate E].
    + split.
      * intros H. apply andb_prop in H as [H1 H2].
        apply Ascii.eqb_eq in H1 as ->. apply IH in H2 as [post ->].
        exists post. reflexivity.
      * intros [post E]. injection E as -> ->.
        rewrite Ascii.eqb_refl. apply IH. exists post. reflexivity.
Qed.

Lemma str_in_iff (t s : string) :
  str_in t s = true <-> exists pre post, s = pre ++ t ++ post.
Proof.
  induction s as [|c s IH]; cbn [str_in].
  - rewrite orb_false_r, startswith_iff. split.
    + intros [post E]. exists "", post. exact E.
    + intros (pre & post & E). destruct pre; [|discriminate E].
      exists post. exact E.
  - rewrite orb_true_iff, startswith_iff, IH. split.
    + intros [[post E] | (pre & post & E)].
      * exists "", post. exact E.
      * exists (String c pre), post. cbn [String.append]. now rewrite E.
    + intros (pre & post & E). destruct pre as [|c' pre].
      * left. exists post. exact E.
      * right. cbn [String.append] in E. injection E as _ E.
        exists pre, post. exact E.
Qed.

Lemma str_in_empty (s : string) : str_in "" s = true.
Proof. destruct s; reflexivity. Qed.

Lemma contains_ci_iff (term field : string) (book : value) :
  contains_ci term field book = true <->
  exists s, field_str book field = Some s /\ ci_substring term s.
Proof.
  unfold contains_ci, ci_substring. destruct (field_str book field) as [s|].
  - rewrite str_in_iff. split.
    + intros H. exists s. split; [reflexivity | exact H].
    + intros (s' & E & H). injection E as <-. exact H.
  - split; [discriminate | intros (s & E & _); discriminate E].
Qed.

Lemma field_contains_str (term : string) (book : value) (field : string) :
  has_str field book = true ->
  field_contains term book field = Return (contains_ci term field book).
Proof.
  unfold has_str, contains_ci, field_str, field_contains, getitem.
  destruct book as [| | | | |d]; try discriminate.
  destruct (dict_get d field) as [[| | |s| |]|]; try discriminate.
  reflexivity.
Qed.

Lemma view_loop_filter (term : string) (books : list value) :
  searchable books ->
  view_loop term "All" books = Return (filter (in_scope Both term) books).
Proof.
  induction 1 as [|book books [Ht Ha] _ IH]; [reflexivity|].
  cbn [view_loop filter in_scope]. unfold view_condition.
  rewrite !field_contains_str by assumption. cbn [bind].
  rewrite IH. cbn [in_scope].
  destruct (contains_ci term "title" book); cbn [bind orb String.eqb Ascii.eqb Bool.eqb];
    [reflexivity|].
  destruct (contains_ci term "author" book); reflexivity.
Qed.

Lemma search_loop_title (term : string) (books : list value) :
  searchable books ->
  search_loop "Title" term books = Return (filter (in_scope ByTitle term) books).
Proof.
  induction 1 as [|book books [Ht Ha] _ IH]; [reflexivity|].
  cbn [search_loop filter in_scope]. unfold search_condition.
  cbn [String.eqb Ascii.eqb Bool.eqb].
  rewrite field_contains_str by assumption. cbn [bind]. rewrite IH.
  cbn [in_scope]. destruct (contains_ci term "title" book); reflexivity.
Qed.

Lemma search_loop_author (term : string) (books : list value) :
  searchable books ->
  search_loop "Author" term books = Return (filter (in_scope ByAuthor term) books).
Proof.
  induction 1 as [|book books [Ht Ha] _ IH]; [reflexivity|].
  cbn [search_loop filter in_scope]. unfold search_condition.
  cbn [String.eqb Ascii.eqb Bool.eqb bind].
  rewrite field_contains_str by assumption. cbn [bind]. rewrite IH.
  cbn [in_scope]. destruct (contains_ci term "author" book); reflexivity.
Qed.

Lemma results_of_list (results : list value) :
  results_of (if truthy (VList results) then Cards results else Info) =
  Some results.
Proof. destruct results; reflexivity. Qed.

Lemma truthy_term (term : string) : term <> "" -> truthy (VStr term) = true.
Proof. destruct term; [congruence | reflexivity]. Qed.

Lemma in_scope_both_empty (books : list value) :
  searchable books -> filter (in_scope Both "") books = books.
Proof.
  induction 1 as [|book books [Ht _] _ IH]; [reflexivity|].
  cbn [filter]. rewrite IH.
  unfold in_scope, contains_ci. unfold has_str in Ht.
  destruct (field_str book "title"); [|discriminate].
  cbn [lower]. now rewrite str_in_empty.
Qed.

End SearchFacts.

Import SearchFacts.

(** C9, as stated, fails: "Search Books" with an empty term searches
    nothing and shows nothing, though the empty term occurs in every
    title. *)
Lemma search_books_empty_term_shows_nothing :
  search (collection_of [dune; foundation]) "" ByTitle = Return None /\
  search (collection_of [dune; foundation]) "" ByAuthor = Return None /\
  filter (in_scope ByTitle "") [dune; foundation] = [dune; foundation].
Proof. repeat split. Qed.

(** C9, amended: on a collection of records with a str title and author, a
    search returns, in store order, exactly the records in which the term
    occurs, case ignored, in a field of the scope, for the scope of both
    fields with any term and for the scope of the title or of the author
    with a term that is not empty.  With the empty term the search of both
    fields returns every record, and the search of the title or of the
    author is not made. *)
Theorem search_spec (self : BookCollection) (books : list value)
  (term : string) (sc : scope) :
  books_list self = VList books -> searchable books ->
  (sc = Both \/ term <> "" ->
   search self term sc = Return (Some (filter (in_scope sc term) books))) /\
  (sc <> Both -> search self "" sc = Return None) /\
  search self "" Both = Return (Some books) /\
  (forall book,
     in_scope sc term book = true <->
     exists field s, In field (scope_fields sc) /\
                     field_str book field = Some s /\ ci_substring term s).
Proof.
  intros E S. split; [|split; [|split]].
  - intros H. destruct sc; unfold search, search_books, view_collection.
    + destruct H as [H|H]; [discriminate|].
      rewrite truthy_term, E by exact H. cbn [iter bind].
      rewrite search_loop_title by exact S. cbn [bind].
      now rewrite results_of_list.
    + destruct H as [H|H]; [discriminate|].
      rewrite truthy_term, E by exact H. cbn [iter bind].
      rewrite search_loop_author by exact S. cbn [bind].
      now rewrite results_of_list.
    + rewrite E. cbn [iter bind]. now rewrite view_loop_filter by exact S.
  - intros H. destruct sc; [reflexivity | reflexivity | congruence].
  - unfold search, view_collection. rewrite E. cbn [iter bind].
    rewrite view_loop_filter by exact S. cbn [bind].
    now rewrite in_scope_both_empty by exact S.
  - intros book. destruct sc; cbn [in_scope scope_fields In];
      rewrite ?orb_true_iff, !contains_ci_iff.
    + split.
      * intros (s & F & C). exists "title"%string, s. tauto.
      * intros (field & s & [<- | []] & F & C). exists s. tauto.
    + split.
      * intros (s & F & C). exists "author"%string, s. tauto.
      * intros (field & s & [<- | []] & F & C). exists s. tauto.
    + split.
      * intros [(s & F & C) | (s & F & C)];
          [exists "title"%string, s | exists "author"%string, s]; tauto.
      * intros (field & s & [<- | [<- | []]] & F & C); [left | right];
          exists s; tauto.
Qed.

Lemma search_spec_witness :
  search (collection_of [dune_messiah; foundation]) "dune" ByTitle =
  Return (Some [dune_messiah]) /\
  search (collection_of [dune_messiah; foundation]) "" Both =
  Return (Some [dune_messiah; foundation]).
Proof.
  assert (S : searchable [dune_messiah; foundation])
    by (repeat constructor).
  destruct (search_spec (collection_of [dune_messiah; foundation])
              [dune_messiah; foundation] "dune" ByTitle eq_refl S)
    as (H1 & _ & H3 & _).
  split; [apply H1; right; discriminate | exact H3].
Defined.

(** * Further properties of the code *)

Import CodecFacts DecoderFacts.

(** ** Well-formed values under the operations *)

Module WfFacts.

Lemma load_after_save (self other : BookCollection) (w : World) :
  wf_value (books_list self) = true ->
  storage_file other = storage_file self ->
  read_from_file other (save_to_file self w) =
  Return (set_books_list other (books_list self)).
Proof.
  intros W S. unfold read_from_file, json_load, read_text, save_to_file, write_text.
  cbn [files]. rewrite S, lookup_store. cbn [bind].
  now rewrite json_loads_dumps.
Qed.

Lemma load_own_save (self : BookCollection) (w : World) :
  wf_value (books_list self) = true ->
  read_from_file self (save_to_file self w) = Return self.
Proof.
  intros W. rewrite load_after_save by auto.
  now rewrite set_books_list_same.
Qed.

Lemma forallb_app_one {A : Type} (f : A -> bool) (l : list A) (x : A) :
  forallb f (l ++ [x]) = forallb f l && f x.
Proof. rewrite forallb_app. cbn [forallb]. now rewrite andb_true_r. Qed.

Lemma forallb_filter {A : Type} (f g : A -> bool) (l : list A) :
  forallb f l = true -> forallb f (filter g l) = true.
Proof.
  induction l as [|x l IH]; [reflexivity|]. cbn [forallb filter].
  intros H. apply andb_prop in H as [Hx Hl].
  destruct (g x); cbn [forallb]; [rewrite Hx|]; auto.
Qed.

Lemma distinct_keys_in (k : string) (keys : list string) :
  existsb (String.eqb k) keys = true <-> In k keys.
Proof.
  rewrite existsb_exists. split.
  - intros (x & I & E). apply String.eqb_eq in E. now subst.
  - intros I. exists k. split; [exact I | apply String.eqb_refl].
Qed.

Lemma existsb_false_app (k : string) (keys : list string) (k' : string) :
  existsb (String.eqb k) (keys ++ [k']) =
  existsb (String.eqb k) keys || String.eqb k k'.
Proof. rewrite existsb_app. cbn [existsb]. now rewrite orb_false_r. Qed.

Lemma distinct_keys_app_one (keys : list string) (k : string) :
  distinct_keys keys = true -> existsb (String.eqb k) keys = false ->
  distinct_keys (keys ++ [k]) = true.
Proof.
  induction keys as [|k0 keys IH]; [reflexivity|].
  cbn [distinct_keys List.app existsb]. intros D N.
  apply andb_prop in D as [D0 D]. apply orb_false_elim in N as [N0 N].
  rewrite existsb_false_app, IH by assumption.
  apply negb_true_iff in D0. rewrite D0. cbn [orb].
  rewrite String.eqb_sym, N0. reflexivity.
Qed.

(** The keys after an assignment: the same keys, or one more at the
    end. *)
Lemma dict_set_keys (d : dict) (k : string) (v : value) :
  map fst (dict_set d k v) =
  if existsb (String.eqb k) (map fst d) then map fst d else map fst d ++ [k].
Proof.
  induction d as [|[k0 v0] d IH]; [reflexivity|].
  cbn [dict_set map fst existsb]. rewrite (String.eqb_sym k k0).
  destruct (String.eqb k0 k); cbn [orb map fst]; [reflexivity|].
  rewrite IH. destruct (existsb _ _); reflexivity.
Qed.

Lemma dict_set_distinct (d : dict) (k : string) (v : value) :
  distinct_keys (map fst d) = true ->
  distinct_keys (map fst (dict_set d k v)) = true.
Proof.
  intros D. rewrite dict_set_keys.
  destruct (existsb (String.eqb k) (map fst d)) eqn:E; [exact D|].
  now apply distinct_keys_app_one.
Qed.

Lemma dict_set_wf (d : dict) (k : string) (v : value) :
  forallb (fun kv => wf_value (snd kv)) d = true -> wf_value v = true ->
  forallb (fun kv => wf_value (snd kv)) (dict_set d k v) = true.
Proof.
  intros D V. induction d as [|[k0 v0] d IH]; cbn [dict_set forallb snd].
  - now rewrite V.
  - cbn [forallb snd] in D. apply andb_prop in D as [D0 D].
    destruct (String.eqb k0 k); cbn [forallb snd].
    + now rewrite V, D.
    + now rewrite D0, IH.
Qed.

Lemma dict_update_wf (other d : dict) :
  wf_value (VDict d) = true -> wf_value (VDict other) = true ->
  wf_value (VDict (dict_update d other)) = true.
Proof.
  cbn [wf_value]. intros D O. apply andb_prop in O as [_ O].
  unfold dict_update. revert d D.
  induction other as [|[k v] other IH]; intros d D; cbn [fold_left fst snd];
    [exact D|].
  cbn [forallb snd] in O. apply andb_prop in O as [V O].
  apply IH; [exact O|]. apply andb_prop in D as [D1 D2].
  now rewrite dict_set_distinct, dict_set_wf.
Qed.

End WfFacts.

Import WfFacts.

(** ** What is on disk after a mutation *)

(** X1: a collection of JSON-compatible values that is saved and then
    loaded comes back as it was, records of the store format or not. *)
Theorem saved_collection_loads_back (self : BookCollection) (w : World) :
  wf_value (books_list self) = true ->
  read_from_file self (save_to_file self w) = Return self.
Proof. apply load_own_save. Qed.

Lemma saved_collection_loads_back_witness :
  read_from_file
    (collection_of [VDict [("title", VStr "Dune"); ("rating", VInt 5);
                           ("tags", VList [VStr "sf"; VNone])]])
    (save_to_file
       (collection_of [VDict [("title", VStr "Dune"); ("rating", VInt 5);
                              ("tags", VList [VStr "sf"; VNone])]])
       no_file) =
  Return (collection_of [VDict [("title", VStr "Dune"); ("rating", VInt 5);
                                ("tags", VList [VStr "sf"; VNone])]]).
Proof. apply saved_collection_loads_back. reflexivity. Defined.

(** X2: after [add_book] on a list of JSON-compatible values, the new
    record is the last of the collection, with the six fields in the order
    of the source and [today] as its date, and the storage file holds the
    whole collection: loading it returns the collection. *)
Theorem add_book_then_load (self : BookCollection) (books : list value)
  (title author year genre read : value) (today : string) (w : World) :
  books_list self = VList books ->
  wf_value (VList books) = true ->
  wf_value (VList [title; author; year; genre; read]) = true ->
  exists self' w',
    add_book self title author year genre read today w = Return (self', w') /\
    books_list self' =
      VList (books ++
             [VDict [("title", title); ("author", author); ("year", year);
                     ("genre", genre); ("read", read);
                     ("date_added", VStr today)]]) /\
    read_from_file self' w' = Return self'.
Proof.
  intros E W A. unfold add_book. rewrite E. cbn [append bind].
  eexists _, _. split; [reflexivity|]. split; [reflexivity|].
  apply load_own_save. cbn [set_books_list books_list].
  cbn [wf_value] in W |- *. rewrite forallb_app_one, W. cbn [andb].
  cbn [wf_value forallb] in A.
  repeat (apply andb_prop in A as [?H A]).
  cbn [wf_value map fst snd forallb distinct_keys existsb].
  repeat match goal with H : wf_value _ = true |- _ => rewrite H; clear H end.
  reflexivity.
Qed.

Lemma add_book_then_load_witness :
  exists self' w',
    add_book (collection_of [dune]) (VStr "Foundation") (VStr "Asimov")
      (VInt 1951) (VStr "Science Fiction") (VBool true) "2024-01-17" no_file =
    Return (self', w') /\
    books_list self' =
      VList ([dune] ++
             [VDict [("title", VStr "Foundation"); ("author", VStr "Asimov");
                     ("year", VInt 1951); ("genre", VStr "Science Fiction");
                     ("read", VBool true); ("date_added", VStr "2024-01-17")]]) /\
    read_from_file self' w' = Return self'.
Proof.
  apply (add_book_then_load (collection_of [dune]) [dune]); reflexivity.
Defined.

(** X3: after [delete_book] on a list of JSON-compatible records with str
    titles, the storage file holds the collection that is left: loading it
    returns that collection. *)
Theorem delete_book_then_load (self : BookCollection) (books : list value)
  (t : string) (w : World) :
  books_list self = VList books -> titled books ->
  wf_value (VList books) = true ->
  exists self' w',
    delete_book self (VStr t) w = Return (self', w') /\
    read_from_file self' w' = Return self'.
Proof.
  intros E T W. unfold delete_book. rewrite E. cbn [iter bind].
  rewrite without_title_filter by exact T. cbn [bind].
  eexists _, _. split; [reflexivity|].
  apply load_own_save. cbn [set_books_list books_list wf_value].
  apply forallb_filter. exact W.
Qed.

Lemma delete_book_then_load_witness :
  exists self' w',
    delete_book (collection_of [dune; foundation; dune_upper]) (VStr "dune")
      no_file = Return (self', w') /\
    read_from_file self' w' = Return self'.
Proof.
  apply (delete_book_then_load _ [dune; foundation; dune_upper]);
    [reflexivity | repeat constructor | reflexivity].
Defined.

Lemma wf_value_update_at (pre post : list value) (d other : dict) :
  wf_value (VList (pre ++ VDict d :: post)) = true ->
  wf_value (VDict other) = true ->
  wf_value (VList (pre ++ VDict (dict_update d other) :: post)) = true.
Proof.
  cbn [wf_value]. rewrite !forallb_app. cbn [forallb]. intros W O.
  apply andb_prop in W as [Wpre W]. apply andb_prop in W as [Wd Wpost].
  rewrite Wpre, Wpost.
  change (wf_value (VDict (dict_update d other)) && true = true).
  now rewrite dict_update_wf.
Qed.

(** X4: after [update_book] has found a record, on a list of
    JSON-compatible records with str titles and with JSON-compatible new
    data, the storage file holds the updated collection: loading it returns
    that collection, the fields that the update added included. *)
Theorem update_book_then_load (self : BookCollection) (books : list value)
  (t : string) (new_data : dict) (w : World) :
  books_list self = VList books -> titled books ->
  existsb (same_title t) books = true ->
  wf_value (VList books) = true -> wf_value (VDict new_data) = true ->
  exists self' w',
    update_book self (VStr t) new_data w = Return (true, self', w') /\
    read_from_file self' w' = Return self'.
Proof.
  intros E T M W N.
  destruct (first_match books t T M) as (pre & d & post & -> & Tpre & Npre & Md).
  unfold update_book. rewrite E. cbn [iter bind].
  rewrite update_first_present by assumption. cbn [bind with_elements].
  eexists _, _. split; [reflexivity|].
  apply load_own_save. cbn [set_books_list books_list].
  now apply wf_value_update_at.
Qed.

Lemma update_book_then_load_witness :
  exists self' w',
    update_book (collection_of [dune; foundation]) (VStr "FOUNDATION")
      [("read", VBool false); ("rating", VInt 5)] no_file =
    Return (true, self', w') /\
    read_from_file self' w' = Return self'.
Proof.
  apply (update_book_then_load _ [dune; foundation]);
    [reflexivity | repeat constructor | reflexivity | reflexivity | reflexivity].
Defined.

(** ** Adding *)

Module FormFacts.

Lemma named_record (title author : string) (year : Z) (genre : string)
  (read : bool) (today : string) :
  title <> "" -> author <> "" ->
  named (record title author year genre read today) = true.
Proof.
  intros T A. unfold named. cbn.
  destruct (String.eqb_spec title ""); [contradiction|].
  destruct (String.eqb_spec author ""); [contradiction|]. reflexivity.
Qed.

Lemma truthy_str (s : string) : truthy (VStr s) = true -> s <> "".
Proof. destruct s; discriminate. Qed.

End FormFacts.

Import FormFacts.

(** X5: the form "Add Book" keeps a list collection in the store format and
    free of nameless records: when every record is well-formed with a title
    and an author that are not empty, so is every record after a submission,
    whatever the inputs; a submission with a title and an author that are
    not empty adds one record, any other adds none. *)
Theorem add_book_form_keeps_records (self self' : BookCollection)
  (books : list value) (title author : string) (year : Z) (genre : string)
  (read : bool) (today : string) (w w' : World) (message : shown) :
  books_list self = VList books ->
  forallb (fun book => well_formed_record book && named book) books = true ->
  add_book_form self title author year genre read today w =
  Return (message, self', w') ->
  exists books',
    books_list self' = VList books' /\
    forallb (fun book => well_formed_record book && named book) books' = true /\
    List.length books' =
    if negb (String.eqb title "") && negb (String.eqb author "")
    then S (List.length books) else List.length books.
Proof.
  intros E N. unfold add_book_form. cbn [truthy].
  destruct (negb (String.eqb title "")) eqn:T;
    destruct (negb (String.eqb author "")) eqn:A; cbn [andb];
    try (intros H; injection H as _ <- _; exists books; now repeat split).
  unfold add_book. rewrite E. cbn [append bind fst snd].
  intros H. injection H as _ <- _. eexists. split; [reflexivity|]. split.
  - rewrite WfFacts.forallb_app_one, N. cbn [andb].
    change (well_formed_record (record title author year genre read today) &&
            named (record title author year genre read today) = true).
    rewrite named_record; [reflexivity | |].
    + apply (truthy_str title). exact T.
    + apply (truthy_str author). exact A.
  - rewrite length_app. cbn [List.length]. lia.
Qed.

Lemma add_book_form_keeps_records_witness :
  exists books',
    books_list (collection_of [dune; foundation]) = VList books' /\
    forallb (fun book => well_formed_record book && named book) books' = true /\
    List.length books' =
    if negb (String.eqb "Foundation" "") && negb (String.eqb "Asimov" "")
    then S (List.length [dune]) else List.length [dune].
Proof.
  apply (add_book_form_keeps_records (collection_of [dune])
           (collection_of [dune; foundation]) [dune] "Foundation" "Asimov" 1951
           "Science Fiction" true "2024-01-17" no_file
           (save_to_file (collection_of [dune; foundation]) no_file)
           (Success "Foundation")); reflexivity.
Defined.

(** X6: a storage file that holds JSON other than an array is loaded, and
    then every [add_book] raises [AttributeError]: the collection is no
    list and has no [append]. *)
Theorem add_book_after_load_of_no_list (self : BookCollection) (w : World)
  (text : string) (v : value) :
  lookup (files w) (storage_file self) = Some text ->
  json_loads text = Return v ->
  (forall l, v <> VList l) ->
  read_from_file self w = Return (set_books_list self v) /\
  forall title author year genre read today w',
    add_book (set_books_list self v) title author year genre read today w' =
    Raise AttributeError.
Proof.
  intros L J N. split.
  - unfold read_from_file, json_load, read_text. rewrite L. cbn [bind].
    now rewrite J.
  - intros. unfold add_book. cbn [set_books_list books_list].
    destruct v; try reflexivity. now destruct (N l).
Qed.

Lemma add_book_after_load_of_no_list_witness :
  read_from_file (collection_of []) (file_with "{}") =
  Return (set_books_list (collection_of []) (VDict [])) /\
  forall title author year genre read today w',
    add_book (set_books_list (collection_of []) (VDict [])) title author year
      genre read today w' = Raise AttributeError.
Proof.
  apply (add_book_after_load_of_no_list (collection_of []) (file_with "{}") "{}");
    [reflexivity | reflexivity | discriminate].
Defined.

(** ** Deleting *)

Module DeleteFacts.

Lemma titled_filter (f : value -> bool) (books : list value) :
  titled books -> titled (filter f books).
Proof.
  unfold titled. rewrite !Forall_forall. intros H book I.
  apply filter_In in I as [I _]. now apply H.
Qed.

Lemma filter_filter_same {A : Type} (f : A -> bool) (l : list A) :
  filter f (filter f l) = filter f l.
Proof.
  induction l as [|x l IH]; [reflexivity|]. cbn [filter].
  destruct (f x) eqn:E; cbn [filter]; [rewrite E, IH|]; auto.
Qed.

Lemma filter_comm {A : Type} (f g : A -> bool) (l : list A) :
  filter f (filter g l) = filter g (filter f l).
Proof.
  induction l as [|x l IH]; [reflexivity|]. cbn [filter].
  destruct (f x) eqn:F; destruct (g x) eqn:G; cbn [filter];
    rewrite ?F, ?G, IH; reflexivity.
Qed.

Lemma no_match_after_filter (t : string) (books : list value) :
  Forall (fun book => same_title t book = false)
    (filter (fun book => negb (same_title t book)) books).
Proof.
  apply Forall_forall. intros book I. apply filter_In in I as [_ H].
  now apply negb_true_iff in H.
Qed.

Lemma same_title_lower (s t : string) (book : value) :
  lower s = lower t -> same_title s book = same_title t book.
Proof. unfold same_title. now intros ->. Qed.

Lemma delete_book_titled (self : BookCollection) (books : list value)
  (t : string) (w : World) :
  books_list self = VList books -> titled books ->
  delete_book self (VStr t) w =
  Return (set_books_list self
            (VList (filter (fun book => negb (same_title t book)) books)),
          save_to_file
            (set_books_list self
               (VList (filter (fun book => negb (same_title t book)) books)))
            w).
Proof.
  intros E T. unfold delete_book. rewrite E. cbn [iter bind].
  now rewrite without_title_filter.
Qed.

Lemma without_title_untitled (pre post : list value) (d : dict) (t : string) :
  titled pre -> dict_get d "title" = None ->
  without_title (pre ++ VDict d :: post) (VStr t) = Raise KeyError.
Proof.
  intros T K. induction T as [|book pre Hb _ IH]; cbn [List.app without_title].
  - unfold title_is, getitem. now rewrite K.
  - rewrite title_is_titled by exact Hb. cbn [bind]. now rewrite IH.
Qed.

Lemma update_first_untitled (pre post : list value) (d : dict) (t : string)
  (new_data : dict) :
  titled pre -> dict_get d "title" = None ->
  existsb (same_title t) pre = false ->
  update_first (pre ++ VDict d :: post) (VStr t) new_data = Raise KeyError.
Proof.
  intros T K N. induction T as [|book pre Hb _ IH]; cbn [List.app update_first].
  - unfold title_is, getitem. now rewrite K.
  - rewrite title_is_titled by exact Hb. cbn [bind].
    cbn [existsb] in N. apply orb_false_elim in N as [N1 N2].
    rewrite N1. now rewrite IH.
Qed.

End DeleteFacts.

Import DeleteFacts.

(** X7: a second [delete_book] of the same title removes nothing more, and
    an [update_book] of that title finds nothing: after a delete no record
    has the title, in any case of its letters. *)
Theorem delete_book_twice (self : BookCollection) (books : list value)
  (t : string) (w : World) :
  books_list self = VList books -> titled books ->
  exists self' w',
    delete_book self (VStr t) w = Return (self', w') /\
    delete_book self' (VStr t) w' = Return (self', save_to_file self' w') /\
    forall new_data,
      update_book self' (VStr t) new_data w' = Return (false, self', w').
Proof.
  intros E T. rewrite (delete_book_titled self books t w E T).
  eexists _, _. split; [reflexivity|].
  set (kept := filter (fun book => negb (same_title t book)) books).
  assert (Tk : titled kept) by now apply titled_filter.
  pose proof (no_match_after_filter t books) as N. fold kept in N.
  split.
  - rewrite (delete_book_titled _ kept) by (auto; reflexivity).
    unfold kept. rewrite filter_filter_same. fold kept.
    destruct self; reflexivity.
  - intros new_data. unfold update_book. cbn [set_books_list books_list iter bind].
    now rewrite update_first_absent.
Qed.

Lemma delete_book_twice_witness :
  exists self' w',
    delete_book (collection_of [dune; foundation; dune_upper]) (VStr "DUNE")
      no_file = Return (self', w') /\
    delete_book self' (VStr "DUNE") w' = Return (self', save_to_file self' w') /\
    forall new_data,
      update_book self' (VStr "DUNE") new_data w' = Return (false, self', w').
Proof.
  apply (delete_book_twice _ [dune; foundation; dune_upper]);
    [reflexivity | repeat constructor].
Defined.

(** X8: two deletes commute: the collection and the storage file after
    deleting one title and then another are those after deleting them in the
    other order. *)
Theorem delete_book_commutes (self : BookCollection) (books : list value)
  (t1 t2 : string) (w : World) :
  books_list self = VList books -> titled books ->
  exists self' w12 w21,
    (r <- delete_book self (VStr t1) w ;; delete_book (fst r) (VStr t2) (snd r)) =
    Return (self', w12) /\
    (r <- delete_book self (VStr t2) w ;; delete_book (fst r) (VStr t1) (snd r)) =
    Return (self', w21) /\
    files w12 = files w21.
Proof.
  intros E T.
  rewrite (delete_book_titled self books t1 w E T).
  rewrite (delete_book_titled self books t2 w E T). cbn [bind fst snd].
  rewrite (delete_book_titled _ (filter (fun book => negb (same_title t1 book)) books))
    by (try reflexivity; now apply titled_filter).
  rewrite (delete_book_titled _ (filter (fun book => negb (same_title t2 book)) books))
    by (try reflexivity; now apply titled_filter).
  rewrite (filter_comm (fun book => negb (same_title t2 book))).
  eexists _, _, _. split; [reflexivity|]. split; [reflexivity|].
  destruct self as [b f]. unfold save_to_file, write_text.
  cbn [set_books_list books_list storage_file files].
  remember (json_dumps _) as a. remember (json_dumps _) as b1.
  remember (json_dumps _) as c. clear.
  induction (files w) as [|[p x] fs IH]; cbn [store].
  - now rewrite !String.eqb_refl.
  - destruct (String.eqb p f) eqn:P; cbn [store]; rewrite P; [reflexivity|].
    now rewrite IH.
Qed.

Lemma delete_book_commutes_witness :
  exists self' w12 w21,
    (r <- delete_book (collection_of [dune; foundation; dune_messiah])
            (VStr "dune") no_file ;;
     delete_book (fst r) (VStr "foundation") (snd r)) = Return (self', w12) /\
    (r <- delete_book (collection_of [dune; foundation; dune_messiah])
            (VStr "foundation") no_file ;;
     delete_book (fst r) (VStr "dune") (snd r)) = Return (self', w21) /\
    files w12 = files w21.
Proof.
  apply (delete_book_commutes _ [dune; foundation; dune_messiah]);
    [reflexivity | repeat constructor].
Defined.

(** X9: a record without a ["title"] key makes [delete_book] raise
    [KeyError] when its turn comes, with collection and file untouched;
    [update_book] raises it too unless an earlier record has the title. *)
Theorem untitled_record_raises (self : BookCollection)
  (pre post : list value) (d : dict) (t : string) (new_data : dict) (w : World) :
  books_list self = VList (pre ++ VDict d :: post) -> titled pre ->
  dict_get d "title" = None ->
  delete_book self (VStr t) w = Raise KeyError /\
  (existsb (same_title t) pre = false ->
   update_book self (VStr t) new_data w = Raise KeyError).
Proof.
  intros E T K. split.
  - unfold delete_book. rewrite E. cbn [iter bind].
    now rewrite without_title_untitled.
  - intros N. unfold update_book. rewrite E. cbn [iter bind].
    now rewrite update_first_untitled.
Qed.

Lemma untitled_record_raises_witness :
  delete_book (collection_of [dune; VDict [("author", VStr "Asimov")]; foundation])
    (VStr "Emma") no_file = Raise KeyError /\
  (existsb (same_title "Emma") [dune] = false ->
   update_book (collection_of [dune; VDict [("author", VStr "Asimov")]; foundation])
     (VStr "Emma") [] no_file = Raise KeyError).
Proof.
  apply (untitled_record_raises _ [dune] [foundation] [("author", VStr "Asimov")]);
    [reflexivity | repeat constructor | reflexivity].
Defined.

(** X10: [update_book] reads no record after the first that has the title:
    it succeeds whatever follows that record, values that are no records
    included. *)
Theorem update_book_stops_at_first_match (self : BookCollection)
  (pre post : list value) (d : dict) (t : string) (new_data : dict) (w : World) :
  books_list self = VList (pre ++ VDict d :: post) -> titled pre ->
  Forall (fun book => same_title t book = false) pre ->
  same_title t (VDict d) = true ->
  let self' :=
    set_books_list self (VList (pre ++ VDict (dict_update d new_data) :: post)) in
  update_book self (VStr t) new_data w = Return (true, self', save_to_file self' w).
Proof.
  intros E T N M self'. unfold update_book. rewrite E. cbn [iter bind].
  now rewrite update_first_present.
Qed.

Lemma update_book_stops_at_first_match_witness :
  update_book (collection_of [foundation; dune; VInt 7; VNone]) (VStr "dune")
    [("read", VBool true)] no_file =
  Return (true,
          collection_of
            [foundation;
             record "Dune" "Herbert" 1965 "Science Fiction" true "2024-01-15";
             VInt 7; VNone],
          save_to_file
            (collection_of
               [foundation;
                record "Dune" "Herbert" 1965 "Science Fiction" true "2024-01-15";
                VInt 7; VNone])
            no_file).
Proof.
  assert (T : titled [foundation]) by repeat constructor.
  assert (N : Forall (fun book => same_title "dune" book = false) [foundation])
    by repeat constructor.
  exact (update_book_stops_at_first_match
           (collection_of [foundation; dune; VInt 7; VNone]) [foundation]
           [VInt 7; VNone]
           [("title", VStr "Dune"); ("author", VStr "Herbert"); ("year", VInt 1965);
            ("genre", VStr "Science Fiction"); ("read", VBool false);
            ("date_added", VStr "2024-01-15")]
           "dune" [("read", VBool true)] no_file eq_refl T N eq_refl).
Defined.

(** X11: the "Delete" button beside a record of a collection with str
    titles removes that record and every record whose title is the same when
    case is ignored, and leaves the others, in order: the collection gets
    shorter. *)
Theorem delete_button_removes_the_book (self : BookCollection)
  (books : list value) (book : value) (w : World) :
  books_list self = VList books -> titled books -> In book books ->
  exists s kept self' w',
    field_str book "title" = Some s /\
    delete_button self book w = Return (self', w') /\
    books_list self' = VList kept /\
    kept = filter (fun other => negb (same_title s other)) books /\
    ~ In book kept /\
    List.length kept < List.length books.
Proof.
  intros E T I.
  assert (Hb : has_str "title" book = true).
  { unfold titled in T. rewrite Forall_forall in T. now apply T. }
  unfold has_str in Hb. destruct (field_str book "title") as [s|] eqn:F;
    [|discriminate].
  assert (G : getitem book "title" = Return (VStr s)).
  { unfold field_str in F. destruct book as [| | | | |d]; try discriminate.
    unfold getitem. destruct (dict_get d "title") as [[| | |s'| |]|];
      try discriminate. now injection F as ->. }
  assert (M : same_title s book = true).
  { unfold same_title. rewrite F. apply String.eqb_refl. }
  exists s. eexists _, _, _. split; [reflexivity|].
  unfold delete_button. rewrite G. cbn [bind].
  rewrite (delete_book_titled self books s w E T).
  split; [reflexivity|]. split; [reflexivity|]. split; [reflexivity|]. split.
  - intros K. apply filter_In in K as [_ K]. now rewrite M in K.
  - clear E T. induction books as [|b books IH]; [destruct I|].
    cbn [filter]. destruct I as [-> | I].
    + rewrite M. cbn [negb List.length].
      pose proof (filter_length_le (fun other => negb (same_title s other)) books).
      lia.
    + specialize (IH I). destruct (negb (same_title s b)); cbn [List.length]; lia.
Qed.

Lemma delete_button_removes_the_book_witness :
  exists s kept self' w',
    field_str dune_upper "title" = Some s /\
    delete_button (collection_of [dune; foundation; dune_upper]) dune_upper no_file =
    Return (self', w') /\
    books_list self' = VList kept /\
    kept = filter (fun other => negb (same_title s other))
             [dune; foundation; dune_upper] /\
    ~ In dune_upper kept /\
    List.length kept < List.length [dune; foundation; dune_upper].
Proof.
  apply (delete_button_removes_the_book _ [dune; foundation; dune_upper]);
    [reflexivity | repeat constructor | right; right; left; reflexivity].
Defined.

(** X12: [delete_book] undoes [add_book]: on a collection with str titles
    in which no record has the title, adding a record of that title and then
    deleting the title, in any case of its letters, gives the collection
    back. *)
Theorem add_then_delete (self : BookCollection) (books : list value)
  (t t' : string) (author year genre read : value) (today : string) (w : World) :
  books_list self = VList books -> titled books ->
  Forall (fun book => same_title t book = false) books ->
  lower t' = lower t ->
  exists w',
    (r <- add_book self (VStr t) author year genre read today w ;;
     delete_book (fst r) (VStr t') (snd r)) = Return (self, w').
Proof.
  intros E T N L. unfold add_book. rewrite E. cbn [append bind fst snd].
  set (book := VDict _).
  assert (Tb : titled (books ++ [book])).
  { apply Forall_app. split; [exact T | repeat constructor]. }
  rewrite (delete_book_titled _ (books ++ [book])) by (auto; reflexivity).
  eexists. f_equal. f_equal.
  rewrite filter_app. cbn [filter].
  assert (M : same_title t' book = true).
  { unfold same_title, book. cbn. rewrite L. apply String.eqb_refl. }
  rewrite M. cbn [negb]. rewrite List.app_nil_r, filter_all.
  - destruct self as [b f]. cbn in E |- *. now rewrite E.
  - eapply Forall_impl; [|exact N]. cbn. intros b H.
    now rewrite (same_title_lower t' t), H.
Qed.

Lemma add_then_delete_witness :
  exists w',
    (r <- add_book (collection_of [foundation]) (VStr "Dune") (VStr "Herbert")
            (VInt 1965) (VStr "Science Fiction") (VBool false) "2024-01-15"
            no_file ;;
     delete_book (fst r) (VStr "DUNE") (snd r)) =
    Return (collection_of [foundation], w').
Proof.
  apply (add_then_delete _ [foundation] "Dune" "DUNE");
    [reflexivity | repeat constructor | repeat constructor | reflexivity].
Defined.

(** ** Updating *)

Module UpdateFacts.

Lemma dict_set_present (d : dict) (k : string) (v : value) :
  dict_get d k = Some v -> dict_set d k v = d.
Proof.
  induction d as [|[k0 v0] d IH]; [discriminate|].
  cbn [dict_get dict_set]. destruct (String.eqb k0 k).
  - intros H. now injection H as ->.
  - intros H. now rewrite IH.
Qed.

Lemma dict_update_present (other d : dict) :
  (forall k v, In (k, v) other -> dict_get d k = Some v) ->
  dict_update d other = d.
Proof.
  unfold dict_update. induction other as [|[k v] other IH]; intros H;
    [reflexivity|].
  cbn [fold_left fst snd]. rewrite dict_set_present by (apply H; now left).
  apply IH. intros k' v' I. apply H. now right.
Qed.

Lemma dict_update_twice (other d : dict) :
  distinct_keys (map fst other) = true ->
  dict_update (dict_update d other) other = dict_update d other.
Proof.
  intros D. apply dict_update_present. intros k v I.
  now apply dict_get_update_supplied.
Qed.

Lemma dict_set_keys_prefix (d : dict) (k : string) (v : value) :
  exists added, map fst (dict_set d k v) = map fst d ++ added.
Proof.
  rewrite WfFacts.dict_set_keys. destruct (existsb _ _).
  - exists []. now rewrite List.app_nil_r.
  - now exists [k].
Qed.

Lemma dict_update_keys_prefix (other d : dict) :
  exists added, map fst (dict_update d other) = map fst d ++ added.
Proof.
  unfold dict_update. revert d.
  induction other as [|[k v] other IH]; intros d; cbn [fold_left fst snd].
  - exists []. now rewrite List.app_nil_r.
  - destruct (IH (dict_set d k v)) as [a2 E2].
    destruct (dict_set_keys_prefix d k v) as [a1 E1].
    exists (a1 ++ a2). now rewrite E2, E1, List.app_assoc.
Qed.

Lemma same_title_update (t : string) (d other : dict) :
  ~ In "title" (map fst other) ->
  same_title t (VDict (dict_update d other)) = same_title t (VDict d).
Proof.
  intros N. unfold same_title, field_str.
  now rewrite dict_get_update_other.
Qed.

End UpdateFacts.

Import UpdateFacts.

(** X13: an update that leaves the title alone can be repeated: the second
    [update_book] with the same title and data finds the same record and
    changes nothing, though it saves again. *)
Theorem update_book_twice (self : BookCollection) (books : list value)
  (t : string) (new_data : dict) (w : World) :
  books_list self = VList books -> titled books ->
  existsb (same_title t) books = true ->
  distinct_keys (map fst new_data) = true ->
  ~ In "title" (map fst new_data) ->
  exists self' w',
    update_book self (VStr t) new_data w = Return (true, self', w') /\
    update_book self' (VStr t) new_data w' =
    Return (true, self', save_to_file self' w').
Proof.
  intros E T M D N.
  destruct (first_match books t T M) as (pre & d & post & -> & Tpre & Npre & Md).
  unfold update_book at 1. rewrite E. cbn [iter bind].
  rewrite update_first_present by assumption. cbn [bind with_elements].
  eexists _, _. split; [reflexivity|].
  unfold update_book. cbn [set_books_list books_list iter bind].
  rewrite update_first_present;
    [ | assumption | assumption | now rewrite same_title_update ].
  cbn [bind with_elements]. now rewrite dict_update_twice.
Qed.

Lemma update_book_twice_witness :
  exists self' w',
    update_book (collection_of [dune; foundation]) (VStr "dune")
      [("read", VBool true); ("rating", VInt 5)] no_file =
    Return (true, self', w') /\
    update_book self' (VStr "dune") [("read", VBool true); ("rating", VInt 5)] w' =
    Return (true, self', save_to_file self' w').
Proof.
  apply (update_book_twice _ [dune; foundation]);
    [reflexivity | repeat constructor | reflexivity | reflexivity |].
  cbn. intros [H | [H | []]]; discriminate H.
Defined.

(** X14: an update whose every pair the first matching record already
    holds, the empty update among them, leaves the collection as it is; the
    result is [True] and the collection is saved all the same. *)
Theorem update_book_nothing_new (self : BookCollection)
  (pre post : list value) (d : dict) (t : string) (new_data : dict) (w : World) :
  books_list self = VList (pre ++ VDict d :: post) -> titled pre ->
  Forall (fun book => same_title t book = false) pre ->
  same_title t (VDict d) = true ->
  (forall k v, In (k, v) new_data -> dict_get d k = Some v) ->
  update_book self (VStr t) new_data w = Return (true, self, save_to_file self w).
Proof.
  intros E T N M H. unfold update_book. rewrite E. cbn [iter bind].
  rewrite update_first_present by assumption. cbn [bind with_elements].
  rewrite dict_update_present by exact H.
  now rewrite set_books_list_same.
Qed.

Lemma update_book_nothing_new_witness :
  update_book (collection_of [foundation; dune]) (VStr "dune") [] no_file =
  Return (true, collection_of [foundation; dune],
          save_to_file (collection_of [foundation; dune]) no_file).
Proof.
  assert (T : titled [foundation]) by repeat constructor.
  assert (N : Forall (fun book => same_title "dune" book = false) [foundation])
    by repeat constructor.
  assert (H : forall k v, In (k, v) (@nil (string * value)) ->
                          dict_get
                            [("title", VStr "Dune"); ("author", VStr "Herbert");
                             ("year", VInt 1965);
                             ("genre", VStr "Science Fiction");
                             ("read", VBool false);
                             ("date_added", VStr "2024-01-15")] k = Some v)
    by (intros k v []).
  exact (update_book_nothing_new (collection_of [foundation; dune]) [foundation] []
           _ "dune" [] no_file eq_refl T N eq_refl H).
Defined.

(** X15: [update_book] removes nothing: the collection keeps its length,
    and the updated record keeps its keys in their order, the keys that are
    new to it coming after them. *)
Theorem update_book_keeps_keys (self : BookCollection) (books : list value)
  (t : string) (new_data : dict) (w : World) :
  books_list self = VList books -> titled books ->
  existsb (same_title t) books = true ->
  exists pre d d' post added self' w',
    books = pre ++ VDict d :: post /\
    update_book self (VStr t) new_data w = Return (true, self', w') /\
    books_list self' = VList (pre ++ VDict d' :: post) /\
    List.length (pre ++ VDict d' :: post) = List.length books /\
    map fst d' = map fst d ++ added.
Proof.
  intros E T M.
  destruct (first_match books t T M) as (pre & d & post & -> & Tpre & Npre & Md).
  destruct (dict_update_keys_prefix new_data d) as [added K].
  exists pre, d, (dict_update d new_data), post, added.
  eexists _, _. split; [reflexivity|]. split.
  - unfold update_book. rewrite E. cbn [iter bind].
    rewrite update_first_present by assumption. reflexivity.
  - split; [reflexivity|]. split; [|exact K].
    rewrite !length_app. reflexivity.
Qed.

Lemma update_book_keeps_keys_witness :
  exists pre d d' post added self' w',
    [dune; foundation] = pre ++ VDict d :: post /\
    update_book (collection_of [dune; foundation]) (VStr "dune")
      [("rating", VInt 5); ("read", VBool true)] no_file =
    Return (true, self', w') /\
    books_list self' = VList (pre ++ VDict d' :: post) /\
    List.length (pre ++ VDict d' :: post) = List.length [dune; foundation] /\
    map fst d' = map fst d ++ added.
Proof.
  apply (update_book_keeps_keys _ [dune; foundation]);
    [reflexivity | repeat constructor | reflexivity].
Defined.

(** ** Reading statistics *)

Module TruthyFacts.

Lemma count_read_truthy (books : list value) :
  forallb (has_field "read") books = true ->
  count_read books = Return (Z.of_nat (List.length (filter read_truthy books))).
Proof.
  induction books as [|book books IH]; [reflexivity|].
  cbn [forallb]. intros H. apply andb_prop in H as [Hb H].
  cbn [count_read filter]. rewrite IH by exact H.
  unfold has_field, has_key in Hb. unfold read_truthy, getitem.
  destruct book as [| | | | |d]; try discriminate.
  destruct (dict_get d "read") as [v|]; [|discriminate].
  cbn [bind]. destruct (truthy v); [|reflexivity].
  cbn [List.length]. now rewrite Nat2Z.inj_succ, Z.add_1_l.
Qed.

Lemma count_read_missing (pre post : list value) (d : dict) :
  forallb (has_field "read") pre = true -> dict_get d "read" = None ->
  count_read (pre ++ VDict d :: post) = Raise KeyError.
Proof.
  intros H K. induction pre as [|book pre IH]; cbn [List.app count_read].
  - unfold getitem. now rewrite K.
  - cbn [forallb] in H. apply andb_prop in H as [Hb H].
    unfold has_field, has_key in Hb. unfold getitem.
    destruct book as [| | | | |d0]; try discriminate.
    destruct (dict_get d0 "read") as [v|]; [|discriminate].
    cbn [bind]. now rewrite IH.
Qed.

End TruthyFacts.

Import TruthyFacts.

(** X16: [get_reading_stats] counts a record as completed when its [read]
    value is true in a condition, a bool or not: a non-zero number or a
    non-empty str counts, [None], [0] and the empty str do not.  The
    completed records are never more than the total. *)
Theorem get_reading_stats_truthy (self : BookCollection) (books : list value) :
  books_list self = VList books ->
  forallb (has_field "read") books = true ->
  (Z.of_nat (List.length books) <= 2 ^ 53)%Z ->
  exists rate,
    get_reading_stats self =
    Return (Z.of_nat (List.length books),
            Z.of_nat (List.length (filter read_truthy books)), rate) /\
    (Z.of_nat (List.length (filter read_truthy books)) <=
     Z.of_nat (List.length books))%Z.
Proof.
  intros E R B. pose proof (filter_length_le read_truthy books) as L.
  unfold get_reading_stats. rewrite E. cbn [len iter bind].
  rewrite count_read_truthy by exact R. cbn [bind].
  destruct (Z.ltb_spec 0 (Z.of_nat (List.length books))) as [P|_].
  - rewrite int_truediv_exact by lia. cbn [bind]. rewrite float_mul_int_100.
    eexists. split; [reflexivity | lia].
  - eexists. split; [reflexivity | lia].
Qed.

Lemma get_reading_stats_truthy_witness :
  exists rate,
    get_reading_stats
      (collection_of [VDict [("read", VStr "yes")]; VDict [("read", VInt 0)];
                      VDict [("read", VNone)]; VDict [("read", VInt 2)]]) =
    Return (4%Z, 2%Z, rate) /\
    (2 <= 4)%Z.
Proof.
  assert (B : (Z.of_nat 4 <= 2 ^ 53)%Z) by (vm_compute; discriminate).
  exact (get_reading_stats_truthy
           (collection_of [VDict [("read", VStr "yes")]; VDict [("read", VInt 0)];
                           VDict [("read", VNone)]; VDict [("read", VInt 2)]])
           [VDict [("read", VStr "yes")]; VDict [("read", VInt 0)];
            VDict [("read", VNone)]; VDict [("read", VInt 2)]]
           eq_refl eq_refl B).
Defined.

(** X17: a record without a ["read"] key makes [get_reading_stats] raise
    [KeyError]. *)
Theorem get_reading_stats_missing_read (self : BookCollection)
  (pre post : list value) (d : dict) :
  books_list self = VList (pre ++ VDict d :: post) ->
  forallb (has_field "read") pre = true ->
  dict_get d "read" = None ->
  get_reading_stats self = Raise KeyError.
Proof.
  intros E R K. unfold get_reading_stats. rewrite E. cbn [len iter bind].
  now rewrite count_read_missing.
Qed.

Lemma get_reading_stats_missing_read_witness :
  get_reading_stats
    (collection_of [dune; VDict [("title", VStr "Emma")]; foundation]) =
  Raise KeyError.
Proof.
  apply (get_reading_stats_missing_read _ [dune] [foundation]
           [("title", VStr "Emma")]); reflexivity.
Defined.

(** ** Viewing and searching *)

Module ViewFacts.

Lemma genre_is_field (book : value) (g : string) :
  has_field "genre" book = true ->
  genre_is book g = Return (genre_is_str g book).
Proof.
  unfold has_field, has_key, genre_is, genre_is_str, field_str, getitem.
  destruct book as [| | | | |d]; try discriminate.
  destruct (dict_get d "genre") as [[| | |s| |]|]; try discriminate; reflexivity.
Qed.

Lemma view_loop_genre (term g : string) (books : list value) :
  searchable books -> forallb (has_field "genre") books = true ->
  g <> "All" ->
  view_loop term g books =
  Return (filter (fun book => in_scope Both term book && genre_is_str g book)
            books).
Proof.
  intros S G N. apply String.eqb_neq in N.
  induction S as [|book books [Ht Ha] _ IH]; [reflexivity|].
  cbn [forallb] in G. apply andb_prop in G as [Gb G].
  cbn [view_loop filter in_scope]. unfold view_condition.
  rewrite !field_contains_str by assumption. cbn [bind].
  rewrite IH by exact G. rewrite N, genre_is_field by exact Gb.
  destruct (contains_ci term "title" book); cbn [bind orb andb].
  - destruct (genre_is_str g book); reflexivity.
  - destruct (contains_ci term "author" book); cbn [bind andb];
      [destruct (genre_is_str g book)|]; reflexivity.
Qed.

Lemma ci_substring_trans (a b c : string) :
  ci_substring a b -> ci_substring b c -> ci_substring a c.
Proof.
  intros (p1 & q1 & E1) (p2 & q2 & E2). unfold ci_substring.
  exists (p2 ++ p1)%string, (q1 ++ q2)%string.
  rewrite E2, E1. now rewrite !append_assoc.
Qed.

Lemma contains_ci_narrow (t1 t2 field : string) (book : value) :
  ci_substring t1 t2 ->
  contains_ci t2 field book = true -> contains_ci t1 field book = true.
Proof.
  intros C. rewrite !contains_ci_iff. intros (s & F & H).
  exists s. split; [exact F|]. now apply (ci_substring_trans t1 t2 s).
Qed.

Lemma in_scope_narrow (sc : scope) (t1 t2 : string) (book : value) :
  ci_substring t1 t2 ->
  in_scope sc t2 book = true -> in_scope sc t1 book = true.
Proof.
  intros C. destruct sc; cbn [in_scope]; rewrite ?orb_true_iff;
    intuition eauto using contains_ci_narrow.
Qed.

Lemma filter_narrow {A : Type} (f g : A -> bool) (l : list A) :
  (forall x, g x = true -> f x = true) ->
  filter g l = filter g (filter f l).
Proof.
  intros H. induction l as [|x l IH]; [reflexivity|]. cbn [filter].
  destruct (g x) eqn:G.
  - rewrite (H x G). cbn [filter]. now rewrite G, IH.
  - destruct (f x); cbn [filter]; rewrite ?G; exact IH.
Qed.

Lemma ci_substring_nonempty (t1 t2 : string) :
  ci_substring t1 t2 -> t1 <> "" -> t2 <> "".
Proof.
  intros (p & q & E) N ->. cbn in E. destruct t1; [congruence|].
  destruct p; discriminate E.
Qed.

Lemma search_filter (self : BookCollection) (books : list value)
  (term : string) (sc : scope) :
  books_list self = VList books -> searchable books ->
  sc = Both \/ term <> "" ->
  search self term sc = Return (Some (filter (in_scope sc term) books)).
Proof.
  intros E S H. destruct sc; unfold search, search_books, view_collection.
  - destruct H as [H|H]; [discriminate|].
    rewrite truthy_term, E by exact H. cbn [iter bind].
    rewrite search_loop_title by exact S. cbn [bind].
    now rewrite results_of_list.
  - destruct H as [H|H]; [discriminate|].
    rewrite truthy_term, E by exact H. cbn [iter bind].
    rewrite search_loop_author by exact S. cbn [bind].
    now rewrite results_of_list.
  - rewrite E. cbn [iter bind]. now rewrite view_loop_filter by exact S.
Qed.

End ViewFacts.

Import ViewFacts.

(** X18: with a genre other than "All" chosen, "View Collection" shows, in
    store order, exactly the records in which the term occurs in the title
    or the author, case ignored, and whose genre is that very str, case
    and all; a record whose genre is no str is never shown. *)
Theorem view_collection_genre_filter (self : BookCollection)
  (books : list value) (term g : string) :
  books_list self = VList books -> searchable books ->
  forallb (has_field "genre") books = true -> g <> "All" ->
  view_collection self term g =
  Return (filter (fun book => in_scope Both term book && genre_is_str g book)
            books).
Proof.
  intros E S G N. unfold view_collection. rewrite E. cbn [iter bind].
  now apply view_loop_genre.
Qed.

Lemma view_collection_genre_filter_witness :
  view_collection (collection_of [dune; dune_upper; foundation; dune_messiah])
    "dune" "Science Fiction" =
  Return [dune; dune_messiah].
Proof.
  assert (S : searchable [dune; dune_upper; foundation; dune_messiah])
    by repeat constructor.
  assert (N : "Science Fiction" <> "All") by discriminate.
  exact (view_collection_genre_filter
           (collection_of [dune; dune_upper; foundation; dune_messiah])
           [dune; dune_upper; foundation; dune_messiah] "dune" "Science Fiction"
           eq_refl S eq_refl N).
Defined.

(** X19: a longer term narrows a search: when a term occurs in a second
    term, case ignored, the records found for the second are those among the
    records found for the first that hold the second, in the same order. *)
Theorem search_narrows (self : BookCollection) (books : list value)
  (t1 t2 : string) (sc : scope) :
  books_list self = VList books -> searchable books ->
  sc = Both \/ t1 <> "" ->
  ci_substring t1 t2 ->
  exists r1 r2,
    search self t1 sc = Return (Some r1) /\
    search self t2 sc = Return (Some r2) /\
    r2 = filter (in_scope sc t2) r1.
Proof.
  intros E S N C.
  eexists _, _. split; [exact (search_filter self books t1 sc E S N)|]. split.
  - apply search_filter; [exact E | exact S |].
    destruct N as [N|N]; [now left | right].
    now apply (ci_substring_nonempty t1 t2).
  - apply filter_narrow. intros book. now apply in_scope_narrow.
Qed.

Lemma search_narrows_witness :
  exists r1 r2,
    search (collection_of [dune; foundation; dune_messiah]) "dune" ByTitle =
    Return (Some r1) /\
    search (collection_of [dune; foundation; dune_messiah]) "Dune M" ByTitle =
    Return (Some r2) /\
    r2 = filter (in_scope ByTitle "Dune M") r1.
Proof.
  apply (search_narrows _ [dune; foundation; dune_messiah]);
    [reflexivity | repeat constructor | right; discriminate |].
  exists "", " m". reflexivity.
Defined.

(** ** Genre distribution *)

Module TallyFacts.

Lemma key_eqb_trans (a b c : value) :
  key_eqb a b = true -> key_eqb a c = key_eqb b c.
Proof.
  destruct a as [|x|n|s|l|d]; destruct b as [|y|m|t|l'|d']; cbn [key_eqb];
    try discriminate; intros H.
  - reflexivity.
  - apply Bool.eqb_prop in H. now subst.
  - destruct x; apply Z.eqb_eq in H; subst m;
      destruct c as [|[]|k| | |]; reflexivity.
  - destruct y; apply Z.eqb_eq in H; subst n;
      destruct c as [|[]|k| | |]; reflexivity.
  - apply Z.eqb_eq in H. now subst.
  - apply String.eqb_eq in H. now subst.
Qed.

Lemma key_eqb_sym (a b : value) : key_eqb a b = key_eqb b a.
Proof.
  destruct a as [|x|n|s|l|d]; destruct b as [|y|m|t|l'|d']; cbn [key_eqb];
    try reflexivity.
  - now destruct x, y.
  - apply Z.eqb_sym.
  - apply Z.eqb_sym.
  - apply Z.eqb_sym.
  - apply String.eqb_sym.
Qed.

Lemma tally_get_set (genres : list (value * Z)) (k k' : value) (n : Z) :
  tally_get (tally_set genres k n) k' 0 =
  if key_eqb k k' then n else tally_get genres k' 0.
Proof.
  induction genres as [|[k0 n0] genres IH]; cbn [tally_set tally_get].
  - reflexivity.
  - destruct (key_eqb k0 k) eqn:E; cbn [tally_get].
    + rewrite (key_eqb_trans k0 k k' E). destruct (key_eqb k k'); reflexivity.
    + rewrite IH. destruct (key_eqb k0 k') eqn:E'; [|reflexivity].
      destruct (key_eqb k k') eqn:E''; [|reflexivity].
      rewrite (key_eqb_trans k0 k' k E'), key_eqb_sym, E'' in E. discriminate E.
Qed.

Lemma total_count_set (genres : list (value * Z)) (k : value) :
  total_count (tally_set genres k (tally_get genres k 0 + 1)) =
  (total_count genres + 1)%Z.
Proof.
  induction genres as [|[k0 n0] genres IH]; cbn [tally_set tally_get total_count].
  - lia.
  - destruct (key_eqb k0 k); cbn [total_count]; [lia|]. rewrite IH. lia.
Qed.

Lemma tally_loop_total (books : list value) :
  forall genres result,
    tally_loop books genres = Return result ->
    total_count result = (total_count genres + Z.of_nat (List.length books))%Z.
Proof.
  induction books as [|book books IH]; intros genres result H.
  - injection H as <-. cbn. lia.
  - cbn [tally_loop] in H.
    destruct (getitem book "genre") as [g| |]; try discriminate H.
    cbn [bind] in H. destruct (hashable g); [|discriminate H].
    cbn [bind] in H. apply IH in H. rewrite H, total_count_set.
    cbn [List.length]. lia.
Qed.

Lemma tally_loop_count (g : string) (books : list value) :
  forall genres result,
    tally_loop books genres = Return result ->
    tally_get result (VStr g) 0 =
    (tally_get genres (VStr g) 0 +
     Z.of_nat (List.length (filter (genre_is_str g) books)))%Z.
Proof.
  induction books as [|book books IH]; intros genres result H.
  - injection H as <-. cbn. lia.
  - cbn [tally_loop] in H. cbn [filter].
    unfold genre_is_str at 1, field_str. unfold getitem in H.
    destruct book as [| | | | |d]; try discriminate H.
    destruct (dict_get d "genre") as [v|]; [|discriminate H].
    cbn [bind] in H. destruct (hashable v) eqn:Hv; [|discriminate H].
    cbn [bind] in H. apply IH in H. rewrite H, tally_get_set.
    destruct v as [|x|n|s|l|d']; cbn [key_eqb]; try lia; try discriminate Hv.
    destruct (String.eqb_spec s g) as [->|N]; cbn [List.length]; [|lia].
    rewrite Nat2Z.inj_succ. lia.
Qed.

Lemma tally_loop_str_genres (pre : list value) :
  forall genres,
    forallb (has_str "genre") pre = true ->
    exists mid, forall rest,
      tally_loop (pre ++ rest) genres = tally_loop rest mid.
Proof.
  induction pre as [|book pre IH]; intros genres H.
  - exists genres. reflexivity.
  - cbn [forallb] in H. apply andb_prop in H as [Hb H].
    unfold has_str, field_str in Hb.
    destruct book as [| | | | |d]; try discriminate.
    destruct (dict_get d "genre") as [[| | |s| |]|] eqn:G; try discriminate.
    destruct (IH (tally_set genres (VStr s) (tally_get genres (VStr s) 0 + 1)) H)
      as [mid E].
    exists mid. intros rest. cbn [List.app tally_loop]. unfold getitem.
    rewrite G. cbn [bind hashable]. apply E.
Qed.

End TallyFacts.

Import TallyFacts.

(** X20: the genre distribution counts every record once: the counts sum
    to the number of records, and the count of a str genre is the number of
    records with that very genre. *)
Theorem genre_distribution_counts (self : BookCollection) (books : list value)
  (genres : list (value * Z)) :
  books_list self = VList books ->
  genre_distribution self = Return genres ->
  total_count genres = Z.of_nat (List.length books) /\
  forall g, tally_get genres (VStr g) 0 =
            Z.of_nat (List.length (filter (genre_is_str g) books)).
Proof.
  intros E H. unfold genre_distribution in H. rewrite E in H. cbn [iter bind] in H.
  split.
  - now rewrite (tally_loop_total books [] genres H).
  - intros g. now rewrite (tally_loop_count g books [] genres H).
Qed.

Lemma genre_distribution_counts_witness :
  total_count [(VStr "Science Fiction", 3%Z); (VStr "Fiction", 1%Z)] =
  Z.of_nat (List.length [dune; dune_upper; foundation; dune_messiah]) /\
  forall g, tally_get [(VStr "Science Fiction", 3%Z); (VStr "Fiction", 1%Z)]
              (VStr g) 0 =
            Z.of_nat (List.length
                        (filter (genre_is_str g)
                           [dune; dune_upper; foundation; dune_messiah])).
Proof.
  apply (genre_distribution_counts
           (collection_of [dune; dune_upper; foundation; dune_messiah]));
    reflexivity.
Defined.

(** X21: after records with str genres, a record without a ["genre"] key
    makes the genre distribution raise [KeyError], and one whose genre is a
    list or a dict makes it raise [TypeError]. *)
Theorem genre_distribution_bad_genre (self : BookCollection)
  (pre post : list value) (d : dict) :
  books_list self = VList (pre ++ VDict d :: post) ->
  forallb (has_str "genre") pre = true ->
  (dict_get d "genre" = None -> genre_distribution self = Raise KeyError) /\
  (forall g, dict_get d "genre" = Some g -> hashable g = false ->
             genre_distribution self = Raise TypeError).
Proof.
  intros E H. unfold genre_distribution. rewrite E. cbn [iter bind].
  destruct (tally_loop_str_genres pre [] H) as [mid ->].
  cbn [tally_loop]. unfold getitem. split.
  - now intros ->.
  - intros g -> Hg. cbn [bind]. now rewrite Hg.
Qed.

Lemma genre_distribution_bad_genre_witness :
  genre_distribution
    (collection_of [dune; VDict [("title", VStr "Emma")]; foundation]) =
  Raise KeyError /\
  genre_distribution
    (collection_of
       [dune; VDict [("title", VStr "Emma"); ("genre", VList [VStr "Novel"])];
        foundation]) =
  Raise TypeError /\
  genre_distribution
    (collection_of
       [dune; VDict [("title", VStr "Emma"); ("genre", VDict [])]; foundation]) =
  Raise TypeError.
Proof.
  split; [|split].
  - apply (genre_distribution_bad_genre
             (collection_of [dune; VDict [("title", VStr "Emma")]; foundation])
             [dune] [foundation] [("title", VStr "Emma")]); reflexivity.
  - apply (genre_distribution_bad_genre
             (collection_of
                [dune;
                 VDict [("title", VStr "Emma"); ("genre", VList [VStr "Novel"])];
                 foundation])
             [dune] [foundation]
             [("title", VStr "Emma"); ("genre", VList [VStr "Novel"])]
             eq_refl eq_refl) with (g := VList [VStr "Novel"]); reflexivity.
  - apply (genre_distribution_bad_genre
             (collection_of
                [dune; VDict [("title", VStr "Emma"); ("genre", VDict [])];
                 foundation])
             [dune] [foundation] [("title", VStr "Emma"); ("genre", VDict [])]
             eq_refl eq_refl) with (g := VDict []); reflexivity.
Defined.

(** X22: on the page "Reading Stats" the message of the empty collection
    stands in place of the chart exactly when the card "Total Books" shows
    0. *)
Theorem reading_stats_page_chart (self : BookCollection) (books : list value)
  (total completed : Z) (rate : number) (c : chart) :
  books_list self = VList books ->
  reading_stats_page self = Return (total, completed, rate, c) ->
  (c = NoBooks <-> total = 0%Z).
Proof.
  intros E H. unfold reading_stats_page in H.
  apply bind_return in H as ([[t1 c1] r1] & S & H).
  apply bind_return in H as (genres & G & H).
  injection H as -> -> -> <-.
  assert (T : total = Z.of_nat (List.length books)).
  { unfold get_reading_stats in S. rewrite E in S. cbn [len iter bind] in S.
    apply bind_return in S as (n & _ & S).
    apply bind_return in S as (r & _ & S). now injection S as <- _ _. }
  unfold genre_distribution in G. rewrite E in G. cbn [iter bind] in G.
  pose proof (tally_loop_total books [] genres G) as L. cbn in L.
  split.
  - intros C. destruct genres; [|discriminate C]. cbn in L. lia.
  - intros Z0. destruct books; [|cbn in T; lia].
    cbn in G. now injection G as <-.
Qed.

Lemma reading_stats_page_chart_witness :
  (BarChart [(VStr "Science Fiction", 2%Z)] = NoBooks <-> 2%Z = 0%Z) /\
  (NoBooks = NoBooks <-> 0%Z = 0%Z).
Proof.
  split.
  - apply (reading_stats_page_chart (collection_of [dune; foundation])
             [dune; foundation] 2 1
             (NFloat (S754_finite false 7036874417766400 (-47))));
      reflexivity.
  - apply (reading_stats_page_chart (collection_of []) [] 0 0 (NInt 0));
      reflexivity.
Defined.

(** ** The text of the storage file *)

Module PlainFacts.

Local Open Scope string_scope.

Lemma all_plain_app (a b : string) :
  all_plain (a ++ b) = all_plain a && all_plain b.
Proof.
  induction a as [|c a IH]; [reflexivity|].
  cbn [String.append all_plain]. now rewrite IH, andb_assoc.
Qed.

Lemma all_plain_escape_char (c : ascii) : all_plain (escape_char c) = true.
Proof. destruct c as [[] [] [] [] [] [] [] []]; reflexivity. Qed.

Lemma all_plain_escape (s : string) : all_plain (escape s) = true.
Proof.
  induction s as [|c s IH]; [reflexivity|].
  cbn [escape]. now rewrite all_plain_app, all_plain_escape_char, IH.
Qed.

Lemma all_plain_basestring (s : string) :
  all_plain (encode_basestring_ascii s) = true.
Proof.
  unfold encode_basestring_ascii. cbn [all_plain].
  rewrite all_plain_app, all_plain_escape. reflexivity.
Qed.

Lemma all_plain_uint (d : uint) : all_plain (NilEmpty.string_of_uint d) = true.
Proof. induction d; cbn [NilEmpty.string_of_uint all_plain]; auto. Qed.

Lemma all_plain_int (n : Z) : all_plain (str_of_int n) = true.
Proof.
  destruct n; cbn [str_of_int all_plain]; apply all_plain_uint.
Qed.

Lemma all_plain_spaces (n : nat) : all_plain (spaces n) = true.
Proof. induction n; cbn [spaces all_plain]; auto. Qed.

Lemma all_plain_indent (level : nat) : all_plain (newline_indent level) = true.
Proof. unfold newline_indent. cbn [all_plain]. now rewrite all_plain_spaces. Qed.

Lemma all_plain_items (level : nat) (l : list value) (tail : string) :
  Forall (fun v => forall level, all_plain (iterencode level v) = true) l ->
  all_plain tail = true ->
  all_plain (encode_items level l tail) = true.
Proof.
  intros H T. induction H as [|y l Hy _ IH]; cbn [encode_items all_plain];
    [exact T|].
  rewrite !all_plain_app, all_plain_indent, Hy, IH. reflexivity.
Qed.

Lemma all_plain_members (level : nat) (d : dict) (tail : string) :
  Forall (fun kv => forall level, all_plain (iterencode level (snd kv)) = true) d ->
  all_plain tail = true ->
  all_plain (encode_members level d tail) = true.
Proof.
  intros H T. induction H as [|[k y] d Hy _ IH]; cbn [encode_members all_plain];
    [exact T|].
  cbn [snd] in Hy. rewrite !all_plain_app, all_plain_indent. cbn [all_plain].
  rewrite !all_plain_app, all_plain_escape. cbn [all_plain].
  rewrite !all_plain_app, Hy, IH. reflexivity.
Qed.

Lemma all_plain_iterencode (v : value) :
  forall level, all_plain (iterencode level v) = true.
Proof.
  induction v using value_ind; intros level.
  - reflexivity.
  - destruct b; reflexivity.
  - apply all_plain_int.
  - apply all_plain_basestring.
  - destruct l as [|x l]; [reflexivity|].
    rewrite <- (append_nil_r (iterencode level (VList (x :: l)))).
    rewrite iterencode_list. inversion H as [|? ? Hx Hl]; subst.
    cbn [all_plain]. rewrite !all_plain_app, all_plain_indent, Hx.
    rewrite all_plain_items; [reflexivity | exact Hl |].
    now rewrite all_plain_app, all_plain_indent.
  - destruct d as [|[k x] d]; [reflexivity|].
    rewrite <- (append_nil_r (iterencode level (VDict ((k, x) :: d)))).
    rewrite iterencode_dict. inversion H as [|? ? Hx Hl]; subst. cbn [snd] in Hx.
    cbn [all_plain]. rewrite !all_plain_app, all_plain_indent. cbn [all_plain].
    rewrite !all_plain_app, all_plain_escape. cbn [all_plain].
    rewrite !all_plain_app, Hx.
    rewrite all_plain_members; [reflexivity | exact Hl |].
    now rewrite all_plain_app, all_plain_indent.
Qed.

End PlainFacts.

Import PlainFacts.

(** X23: the text [save_to_file] leaves in the storage file is made of
    printable ASCII characters and newlines only, whatever the strs of the
    collection hold. *)
Theorem save_to_file_plain_ascii (self : BookCollection) (w : World) :
  exists text,
    lookup (files (save_to_file self w)) (storage_file self) = Some text /\
    all_plain text = true.
Proof.
  exists (json_dumps (books_list self)). split.
  - unfold save_to_file, write_text. cbn [files]. apply lookup_store.
  - apply all_plain_iterencode.
Qed.
